(** * LinkFree account statistics page: [getServerSideProps]

    A shallow embedding of [src/pages/account/statistics.js] and the
    properties of its data reshaping: the profile-completion progress, the
    filtering of link statistics, the click total and the normalisation of the
    daily view samples into a 30-entry series.

    The page code leans on the ECMAScript [Date] built-ins; they are embedded
    here after the ECMAScript specification (section "Date Objects"), with
    time values as integers of milliseconds since the epoch. *)

From Stdlib Require Import ZArith String Ascii List Lia.
From Stdlib Require Import Uint63 PrimFloat SpecFloat FloatOps.
From stdpp Require Import gmap strings.

Local Open Scope Z_scope.

(** ** Outcome of a computation that may throw *)

Inductive exn : Type :=
  | RangeError (msg : string)
  | TypeError (msg : string).

Inductive result (A : Type) : Type :=
  | Ok (a : A)
  | Throw (e : exn).
Arguments Ok {A} a.
Arguments Throw {A} e.

Definition bind {A B : Type} (k : A -> result B) (r : result A) : result B :=
  match r with
  | Ok a => k a
  | Throw e => Throw e
  end.

#[global] Instance result_ret : MRet result := fun _ a => Ok a.
#[global] Instance result_bind : MBind result := fun _ _ k r => bind k r.

(** [arrayMap f l] runs the callback [f] over [l] from left to right, as
    [Array.prototype.map] does, and stops at the first throw. *)
Fixpoint arrayMap {A B : Type} (f : A -> result B) (l : list A) : result (list B) :=
  match l with
  | [] => Ok []
  | a :: l' => b ← f a; bs ← arrayMap f l'; Ok (b :: bs)
  end.

(** [arrayFilter f l]: [Array.prototype.filter] with a callback that may throw. *)
Fixpoint arrayFilter {A : Type} (f : A -> result bool) (l : list A) : result (list A) :=
  match l with
  | [] => Ok []
  | a :: l' => b ← f a; r ← arrayFilter f l'; Ok (if (b : bool) then a :: r else r)
  end.

(** ** ECMAScript day and time arithmetic *)

Module Calendar.

Definition msPerDay : Z := 86400000.

Definition Day (t : Z) : Z := t / msPerDay.
Definition TimeWithinDay (t : Z) : Z := t mod msPerDay.

(** Day number of the first of January of year [y]. *)
Definition DayFromYear (y : Z) : Z :=
  365 * (y - 1970) + (y - 1969) / 4 - (y - 1901) / 100 + (y - 1601) / 400.

Definition DaysInYear (y : Z) : Z :=
  if negb (y mod 4 =? 0) then 365
  else if negb (y mod 100 =? 0) then 366
  else if negb (y mod 400 =? 0) then 365
  else 366.

(** The year of a day number: ECMAScript defines it as the largest [y] with
    [DayFromYear y <= d].  It is computed over the 400-year cycle that starts
    on 1 January 1601 (day -134774), 146097 days long. *)
Definition YearFromDay (d : Z) : Z :=
  let n := d + 134774 in
  let era := n / 146097 in
  let doe := n mod 146097 in
  let yoe := (doe - doe / 1460 + doe / 36524 - doe / 146096) / 365 in
  1601 + 400 * era + yoe.

Definition YearFromTime (t : Z) : Z := YearFromDay (Day t).

Definition InLeapYear (t : Z) : Z :=
  if DaysInYear (YearFromTime t) =? 366 then 1 else 0.

Definition DayWithinYear (t : Z) : Z := Day t - DayFromYear (YearFromTime t).

(** Days of the year before month [m] (0 = January), [leap] being 0 or 1. *)
Definition daysBeforeMonth (m leap : Z) : Z :=
  match m with
  | 0 => 0
  | 1 => 31
  | 2 => 59 + leap
  | 3 => 90 + leap
  | 4 => 120 + leap
  | 5 => 151 + leap
  | 6 => 181 + leap
  | 7 => 212 + leap
  | 8 => 243 + leap
  | 9 => 273 + leap
  | 10 => 304 + leap
  | _ => 334 + leap
  end.

Definition MonthFromTime (t : Z) : Z :=
  let d := DayWithinYear t in
  let leap := InLeapYear t in
  if d <? 31 then 0
  else if d <? 59 + leap then 1
  else if d <? 90 + leap then 2
  else if d <? 120 + leap then 3
  else if d <? 151 + leap then 4
  else if d <? 181 + leap then 5
  else if d <? 212 + leap then 6
  else if d <? 243 + leap then 7
  else if d <? 273 + leap then 8
  else if d <? 304 + leap then 9
  else if d <? 334 + leap then 10
  else 11.

Definition DateFromTime (t : Z) : Z :=
  DayWithinYear t - daysBeforeMonth (MonthFromTime t) (InLeapYear t) + 1.

Definition HourFromTime (t : Z) : Z := (t / 3600000) mod 24.
Definition MinFromTime (t : Z) : Z := (t / 60000) mod 60.
Definition SecFromTime (t : Z) : Z := (t / 1000) mod 60.
Definition msFromTime (t : Z) : Z := t mod 1000.

(** [MakeDay year month date]: the day number of the first of the month,
    plus [date - 1]; [month] may lie outside 0..11 and [date] outside the
    month. *)
Definition MakeDay (year month date : Z) : Z :=
  let ym := year + month / 12 in
  let mn := month mod 12 in
  let leap := if DaysInYear ym =? 366 then 1 else 0 in
  DayFromYear ym + daysBeforeMonth mn leap + date - 1.

Definition MakeDate (day time : Z) : Z := day * msPerDay + time.

(** [TimeClip]: a time value further than 8.64e15 ms from the epoch is not a
    time value; [None] stands for NaN (an invalid date). *)
Definition TimeClip (t : Z) : option Z :=
  if Z.abs t <=? 8640000000000000 then Some t else None.

End Calendar.

(** ** Strings: decimal fields, [toISOString], [split] *)

Module Text.

Definition digitChar (d : Z) : ascii :=
  nth (Z.to_nat d)
    ["0"; "1"; "2"; "3"; "4"; "5"; "6"; "7"; "8"; "9"]%char "0"%char.

(** [padded k n]: the [k] low decimal digits of [n], most significant first
    (a number zero-padded to width [k] when [0 <= n < 10^k]). *)
Fixpoint padded (k : nat) (n : Z) : string :=
  match k with
  | O => EmptyString
  | S k' => String (digitChar ((n / 10 ^ Z.of_nat k') mod 10)) (padded k' n)
  end.

(** The year of the ISO format: four digits for 0..9999, otherwise a sign and
    six digits (the expanded years of [toISOString]). *)
Definition isoYear (y : Z) : string :=
  if (0 <=? y) && (y <=? 9999) then padded 4 y
  else String (if y <? 0 then "-"%char else "+"%char) (padded 6 (Z.abs y)).

(** The date part [YYYY-MM-DD] of the ISO format, from a time value. *)
Definition isoDate (t : Z) : string :=
  isoYear (Calendar.YearFromTime t) +:+ "-" +:+
  padded 2 (Calendar.MonthFromTime t + 1) +:+ "-" +:+
  padded 2 (Calendar.DateFromTime t).

Definition isoTime (t : Z) : string :=
  padded 2 (Calendar.HourFromTime t) +:+ ":" +:+
  padded 2 (Calendar.MinFromTime t) +:+ ":" +:+
  padded 2 (Calendar.SecFromTime t) +:+ "." +:+
  padded 3 (Calendar.msFromTime t) +:+ "Z".

(** [String.prototype.split] with a one-character separator. *)
Fixpoint split (sep : ascii) (s : string) : list string :=
  match s with
  | EmptyString => [EmptyString]
  | String c s' =>
      if Ascii.eqb c sep then EmptyString :: split sep s'
      else match split sep s' with
           | [] => [String c EmptyString]
           | w :: ws => String c w :: ws
           end
  end.

(** Whether the character [c] occurs in [s]. *)
Fixpoint hasChar (c : ascii) (s : string) : bool :=
  match s with
  | EmptyString => false
  | String c' s' => Ascii.eqb c' c || hasChar c s'
  end.

(** Decimal digits of a natural number of at most [fuel] digits, without
    leading zeros ("0" for zero). *)
Fixpoint decimal (fuel : nat) (n : Z) : string :=
  match fuel with
  | O => EmptyString
  | S fuel' =>
      (if n <? 10 then EmptyString else decimal fuel' (n / 10)) +:+
      String (digitChar (n mod 10)) EmptyString
  end.

End Text.

(** ** JavaScript values and the [Date] built-in *)

(** The values a sample's [date] property can hold. [DateObj None] is an
    invalid [Date] (time value NaN); [Num] holds an integral Number. *)
Inductive JSValue : Type :=
  | Undefined
  | Null
  | Num (n : Z)
  | Str (s : string)
  | DateObj (tv : option Z).

#[global] Instance JSValue_eq_dec : EqDecision JSValue.
Proof. solve_decision. Defined.

(** What the language leaves to the host: the local time zone adjustment
    [LocalTZA t isUTC] in milliseconds ([isUTC] tells whether [t] is a UTC or
    a local time value) and [Date.parse]. *)
Record Host : Type := {
  LocalTZA : Z -> bool -> Z;
  DateParse : string -> option Z
}.

Module JSDate.
Import Calendar.

Definition LocalTime (h : Host) (t : Z) : Z := t + LocalTZA h t true.
Definition UTC (h : Host) (t : Z) : Z := t - LocalTZA h t false.

(** [new Date(value)]: the time value of the new object. *)
Definition construct (h : Host) (value : JSValue) : option Z :=
  match value with
  | DateObj tv => tv
  | Str s => DateParse h s
  | Undefined => None
  | Null => TimeClip 0
  | Num n => TimeClip n
  end.

(** [Date.prototype.getDate]: the day of the month in local time. *)
Definition getDate (h : Host) (tv : option Z) : option Z :=
  t ← tv; Some (DateFromTime (LocalTime h t)).

(** [Date.prototype.setDate]: the new time value of the object. *)
Definition setDate (h : Host) (tv : option Z) (date : option Z) : option Z :=
  t ← tv;
  dt ← date;
  let t := LocalTime h t in
  let newDate :=
    MakeDate (MakeDay (YearFromTime t) (MonthFromTime t) dt) (TimeWithinDay t) in
  TimeClip (UTC h newDate).

(** [Date.prototype.toISOString]. *)
Definition toISOString (tv : option Z) : result string :=
  match tv with
  | None => Throw (RangeError "Invalid time value")
  | Some t => Ok (Text.isoDate t +:+ "T" +:+ Text.isoTime t)
  end.

End JSDate.

(** ** Numbers of the percentage computation *)

Module Number.

(** A natural number (an array length, the literal 100) as a Number. *)
Definition ofNat (n : nat) : PrimFloat.float :=
  PrimFloat.of_uint63 (Uint63.of_Z (Z.of_nat n)).

(** [Number.prototype.toFixed(0)]: the integer closest to the number, the
    larger one on a tie, in decimal digits, with "-" in front of a negative
    number.  From 10^21 on [toFixed] answers with [Number::toString], which is
    not embedded: [None] there. *)
Definition toFixed0 (x : PrimFloat.float) : option string :=
  match FloatOps.Prim2SF x with
  | SpecFloat.S754_nan => Some "NaN"
  | SpecFloat.S754_infinity s => Some (if s then "-Infinity" else "Infinity")
  | SpecFloat.S754_zero _ => Some "0"
  | SpecFloat.S754_finite s m e =>
      let n :=
        if 0 <=? e then Z.pos m * 2 ^ e
        else (2 * Z.pos m + 2 ^ (- e)) / 2 ^ (- e + 1) in
      if 10 ^ 21 <=? n then None
      else Some ((if s then "-" else "") +:+ Text.decimal 22 n)
  end.

End Number.

(** ** The data of the page *)

Module Profile.

Record Link : Type := { url : string }.

(** The profile returned by [getUserApi]; a section that the profile does not
    have is [None]. *)
Record t : Type := {
  username : string;
  name : string;
  bio : string;
  links : option (list Link);
  milestones : option (list string);
  tags : option (list string);
  socials : option (list string);
  testimonials : option (list string)
}.

(** [profile[property]?.length] *)
Definition sectionLength (profile : t) (property : string) : option nat :=
  if bool_decide (property = "links") then length <$> links profile
  else if bool_decide (property = "milestones") then length <$> milestones profile
  else if bool_decide (property = "tags") then length <$> tags profile
  else if bool_decide (property = "socials") then length <$> socials profile
  else if bool_decide (property = "testimonials") then length <$> testimonials profile
  else None.

End Profile.

Record DailyStat : Type := { views : Z; date : JSValue }.

#[global] Instance DailyStat_eq_dec : EqDecision DailyStat.
Proof. solve_decision. Defined.

Module Stats.

Record Link : Type := { url : string; clicks : Z }.

(** The statistics returned by [getStats]:
    [{ links: { individual, clicks }, profile: { daily, monthly, total } }].
    View and click counters are integers (below 2^53, where the addition of
    Numbers is exact). *)
Record t : Type := {
  links_individual : list Link;
  links_clicks : Z;
  profile_daily : list DailyStat;
  profile_monthly : Z;
  profile_total : Z
}.

End Stats.

Record Progress : Type := {
  percentage : option string;
  missing : list string
}.

Inductive Response : Type :=
  | Redirect (destination : string) (permanent : bool)
  | Props (data : Stats.t) (profile : Profile.t) (progress : Progress)
      (BASE_URL : string).

(** ** [getServerSideProps] *)

Definition profileSections : list string :=
  ["links"; "milestones"; "tags"; "socials"; "testimonials"].

(** Lines 69-71: [(property) => !profile[property]?.length] *)
Definition sectionMissing (profile : Profile.t) (property : string) : bool :=
  match Profile.sectionLength profile property with
  | None => true
  | Some n => Nat.eqb n 0
  end.

(** Lines 58-76. *)
Definition computeProgress (profile : Profile.t) : Progress :=
  let missing := List.filter (sectionMissing profile) profileSections in
  let percentage :=
    Number.toFixed0
      (PrimFloat.mul
         (PrimFloat.div
            (PrimFloat.sub (Number.ofNat (length profileSections))
               (Number.ofNat (length missing)))
            (Number.ofNat (length profileSections)))
         (Number.ofNat 100)) in
  {| percentage := percentage; missing := missing |}.

(** Line 79: [profile.links.some((pLink) => pLink.url === link.url)];
    reading [some] off an absent [profile.links] throws. *)
Definition linkInProfile (profile : Profile.t) (link : Stats.Link) : result bool :=
  match Profile.links profile with
  | None => Throw (TypeError "Cannot read properties of undefined (reading 'some')")
  | Some pLinks =>
      Ok (existsb (fun pLink => String.eqb (Profile.url pLink) (Stats.url link)) pLinks)
  end.

(** Lines 87-89. *)
Definition totalClicks (individual : list Stats.Link) : Z :=
  fold_left (fun acc link => acc + Stats.clicks link) individual 0.

(** Line 83: [new Date(stat.date).toISOString().split('T')[0]] *)
Definition dayKey (tv : option Z) : result string :=
  iso ← JSDate.toISOString tv;
  Ok (nth 0 (Text.split "T" iso) EmptyString).

(** Lines 82-85: [new Map(data.profile.daily.map(stat => [key, stat]))];
    the entries are inserted in order, a later key replacing an earlier one. *)
Definition buildDailyStatsMap (h : Host) (daily : list DailyStat)
  : result (gmap string DailyStat) :=
  entries ← arrayMap (fun stat =>
                        key ← dayKey (JSDate.construct h (date stat));
                        Ok (key, stat)) daily;
  Ok (fold_left (fun m (e : string * DailyStat) => <[e.1 := e.2]> m) entries ∅).

(** Lines 93-97; [now] is the time value that [new Date()] reads off the
    clock. *)
Definition last30Days (h : Host) (now : Z) : result (list string) :=
  let currentDate := Some now in
  days ← arrayMap (fun index : nat =>
                     let date := currentDate in
                     let date :=
                       JSDate.setDate h date
                         (d ← JSDate.getDate h currentDate;
                          Some (d - Z.of_nat index)) in
                     dayKey date) (seq 0 30);
  Ok (reverse days).

(** Lines 100-104. *)
Definition ensureEntries (keys : list string) (m : gmap string DailyStat)
  : gmap string DailyStat :=
  fold_left (fun m key =>
               match m !! key with
               | Some _ => m
               | None => <[key := {| views := 0; date := Str key |}]> m
               end) keys m.

(** Lines 107-110; reading [views] off a key the map does not have throws. *)
Definition buildStats (keys : list string) (m : gmap string DailyStat)
  : result (list DailyStat) :=
  arrayMap (fun key =>
              match m !! key with
              | Some stat => Ok {| views := views stat; date := Str key |}
              | None =>
                  Throw (TypeError
                           "Cannot read properties of undefined (reading 'views')")
              end) keys.

(** Lines 113-117: the second zero-fill loop, pushing onto the array. *)
Definition fillMissing (keys : list string) (m : gmap string DailyStat)
    (stats : list DailyStat) : list DailyStat :=
  fold_left (fun stats key =>
               match m !! key with
               | Some _ => stats
               | None => stats ++ [{| views := 0; date := Str key |}]
               end) keys stats.

(** Lines 82-119 on the daily samples: the series stored in
    [data.profile.daily]. *)
Definition normalizeDaily (h : Host) (now : Z) (daily : list DailyStat)
  : result (list DailyStat) :=
  dailyStatsMap ← buildDailyStatsMap h daily;
  last30 ← last30Days h now;
  let dailyStatsMap := ensureEntries last30 dailyStatsMap in
  last30DaysStats ← buildStats last30 dailyStatsMap;
  Ok (fillMissing last30 dailyStatsMap last30DaysStats).

(** Lines 50-128, after the session and the profile have been loaded:
    [stats] is the outcome of [getStats(username)].  The click total of lines
    87-90 cannot throw; it is computed where the result is assembled. *)
Definition buildProps (h : Host) (now : Z) (profile : Profile.t)
    (stats : result Stats.t) (BASE_URL : string) : result Response :=
  let progress := computeProgress profile in
  match stats with
  | Throw _ =>
      (* [data] stays [{}] and line 78 reads [data.links.individual] *)
      Throw (TypeError "Cannot read properties of undefined (reading 'individual')")
  | Ok data =>
      individual ← arrayFilter (linkInProfile profile) (Stats.links_individual data);
      last30DaysStats ← normalizeDaily h now (Stats.profile_daily data);
      Ok (Props
            {| Stats.links_individual := individual;
               Stats.links_clicks := totalClicks individual;
               Stats.profile_daily := last30DaysStats;
               Stats.profile_monthly := Stats.profile_monthly data;
               Stats.profile_total := Stats.profile_total data |}
            profile progress BASE_URL)
  end.

(** Lines 22-129. [session] is the user name of the session, if there is one;
    [userApi] is what [getUserApi] answers, a status and a profile. *)
Definition getServerSideProps (h : Host) (now : Z) (session : option string)
    (userApi : string -> Z * Profile.t) (getStats : string -> result Stats.t)
    (BASE_URL : string) : result Response :=
  match session with
  | None => Ok (Redirect "/auth/signin" false)
  | Some username =>
      let '(status, profile) := userApi username in
      if negb (status =? 200) then Ok (Redirect "/account/no-profile" false)
      else buildProps h now profile (getStats username) BASE_URL
  end.

(** ** Hosts *)

Module Hosts.
Import Calendar.

Definition digitValue (c : ascii) : option Z := Z.of_nat <$> Ascii.is_nat c.

Fixpoint digitsValue (cs : list ascii) (acc : Z) : option Z :=
  match cs with
  | [] => Some acc
  | c :: cs' => d ← digitValue c; digitsValue cs' (10 * acc + d)
  end.

Definition parseDay (y1 y2 y3 y4 m1 m2 d1 d2 : ascii) : option Z :=
  y ← digitsValue [y1; y2; y3; y4] 0;
  m ← digitsValue [m1; m2] 0;
  d ← digitsValue [d1; d2] 0;
  let day := MakeDay y (m - 1) d in
  let t := MakeDate day 0 in
  if (1 <=? m) && (m <=? 12) && (1 <=? d) &&
     (MonthFromTime t =? m - 1) && (DateFromTime t =? d)
  then Some day else None.

Definition parseTime (h1 h2 m1 m2 s1 s2 f1 f2 f3 : ascii) : option Z :=
  h ← digitsValue [h1; h2] 0;
  m ← digitsValue [m1; m2] 0;
  s ← digitsValue [s1; s2] 0;
  f ← digitsValue [f1; f2; f3] 0;
  if ((h <=? 23) && (m <=? 59) && (s <=? 59)) ||
     ((h =? 24) && (m =? 0) && (s =? 0) && (f =? 0))
  then Some (h * 3600000 + m * 60000 + s * 1000 + f) else None.

(** A [Date.parse] that recognises the date-only form [YYYY-MM-DD] and the
    form [YYYY-MM-DDTHH:mm:ss.sssZ] that [toISOString] and JSON produce, both
    UTC, and no other string. *)
Definition isoParse (s : string) : option Z :=
  match s with
  | String y1 (String y2 (String y3 (String y4 (String "-"
      (String m1 (String m2 (String "-" (String d1 (String d2 rest))))))))) =>
      day ← parseDay y1 y2 y3 y4 m1 m2 d1 d2;
      match rest with
      | EmptyString => TimeClip (MakeDate day 0)
      | String "T" (String h1 (String h2 (String ":" (String n1 (String n2
          (String ":" (String s1 (String s2 (String "."
          (String f1 (String f2 (String f3 (String "Z" EmptyString))))))))))))) =>
          time ← parseTime h1 h2 n1 n2 s1 s2 f1 f2 f3;
          TimeClip (MakeDate day time)
      | _ => None
      end
  | _ => None
  end%char.

(** A host whose local time is UTC plus a constant number of milliseconds. *)
Definition fixedOffset (offset : Z) : Host :=
  {| LocalTZA := fun _ _ => offset; DateParse := isoParse |}.

Definition utc : Host := fixedOffset 0.

(** Europe/Berlin during 2024: UTC+1, and UTC+2 from 31 March 01:00 UTC to
    27 October 01:00 UTC.  A local time skipped or repeated by a transition
    is read with the offset in force before the transition. *)
Definition berlin2024 : Host :=
  {| LocalTZA := fun t isUTC =>
       if isUTC then
         if (1711846800000 <=? t) && (t <? 1729990800000) then 7200000
         else 3600000
       else
         if (1711854000000 <=? t) && (t <? 1729998000000) then 7200000
         else 3600000;
     DateParse := isoParse |}.

End Hosts.

(** ** Notions used to state the properties *)

(** The calendar-day key of a sample, when its date converts to a time
    value: what line 83 computes for it. *)
Definition sampleKey (h : Host) (stat : DailyStat) : option string :=
  Text.isoDate <$> JSDate.construct h (date stat).

Definition validDate (h : Host) (stat : DailyStat) : Prop :=
  is_Some (JSDate.construct h (date stat)).

(** The last sample of [daily] whose key is [k]. *)
Definition lastOn (h : Host) (daily : list DailyStat) (k : string)
  : option DailyStat :=
  last (filter (fun stat => sampleKey h stat = Some k) daily).

(** A sample is in the window when its key is one of the window keys. *)
Definition inWindow (h : Host) (keys : list string) (stat : DailyStat) : Prop :=
  match sampleKey h stat with
  | Some k => k ∈ keys
  | None => False
  end.

#[global] Instance inWindow_dec h keys stat : Decision (inWindow h keys stat).
Proof. unfold inWindow. destruct (sampleKey h stat); apply _. Defined.

(** The ISO rendering of a day number, and the days [today - 29 .. today]. *)
Definition isoDay (d : Z) : string := Text.isoDate (d * Calendar.msPerDay).

Definition windowDays (today : Z) : list Z :=
  (fun i : nat => today - 29 + Z.of_nat i) <$> seq 0 30.

(** The time value that iteration [index] of line 93 renders: the local time
    of [now], moved back by [index] days and read back as UTC. *)
Definition backTime (h : Host) (now : Z) (index : nat) : Z :=
  JSDate.UTC h (JSDate.LocalTime h now - Z.of_nat index * Calendar.msPerDay).

(** A host whose local time zone adjustment never changes. *)
Definition constantOffset (h : Host) (offset : Z) : Prop :=
  forall t isUTC, LocalTZA h t isUTC = offset.

(** Every day of the trailing window of [now], and of [now] itself, is
    inside the range of time values. *)
Definition clockInRange (now : Z) : Prop :=
  Z.abs now <= 8640000000000000 - 30 * Calendar.msPerDay.

(** A host whose local time is never more than a day away from UTC (every
    time zone in use is). *)
Definition offsetWithinDay (h : Host) : Prop :=
  forall t isUTC, Z.abs (LocalTZA h t isUTC) <= Calendar.msPerDay.

(** The sum of the clicks of a list of link statistics. *)
Definition sumClicks (individual : list Stats.Link) : Z :=
  foldr (fun link acc => Stats.clicks link + acc) 0 individual.

(** The window keys in terms of [backTime]: what [last30Days] returns when
    none of the thirty time values is out of range. *)
Definition backKeys (h : Host) (now : Z) : list string :=
  reverse ((fun index => Text.isoDate (backTime h now index)) <$> seq 0 30).

(** The entry that lines 102 and 115 create for a day without a sample. *)
Definition placeholder (k : string) : DailyStat := {| views := 0; date := Str k |}.

(** The output entry of the key [k], read off the map built from the
    samples: the views of the sample stored under [k], 0 when there is none. *)
Definition entryOn (m : gmap string DailyStat) (k : string) : DailyStat :=
  {| views := from_option views 0 (m !! k); date := Str k |}.

(** A link statistic is kept when some profile link has its url. *)
Definition urlInProfile (pLinks : list Profile.Link) (link : Stats.Link) : Prop :=
  Exists (fun pLink => Profile.url pLink = Stats.url link) pLinks.

(** The thirty time values of the window are in the range of [Date]. *)
Definition windowInRange (h : Host) (now : Z) : Prop :=
  forall index, (index < 30)%nat ->
    Z.abs (backTime h now index) <= 8640000000000000.

(** A host whose offset from UTC never changes by more than a day. *)
Definition offsetShiftWithinDay (h : Host) : Prop :=
  forall t t' isUTC isUTC',
    Z.abs (LocalTZA h t isUTC - LocalTZA h t' isUTC') <= Calendar.msPerDay.

(** The time values of the years 0000 to 9999, which [toISOString] writes
    with four digits. *)
Definition fourDigitYear (t : Z) : Prop :=
  -62167219200000 <= t <= 253402300799999.

#[global] Instance fourDigitYear_dec t : Decision (fourDigitYear t).
Proof. unfold fourDigitYear. apply _. Defined.

(** A host whose [Date.parse] reads the date-only form [YYYY-MM-DD] as
    midnight UTC of that day, as the language specification requires. *)
Definition readsIsoDates (h : Host) : Prop :=
  forall t, fourDigitYear t ->
    DateParse h (Text.isoDate t) = Some (Calendar.Day t * Calendar.msPerDay).

Definition sumOver {A : Type} (f : A -> Z) (l : list A) : Z :=
  foldr (fun a acc => f a + acc) 0 l.

(** The views of a list of samples or entries, added up. *)
Definition sumViews (stats : list DailyStat) : Z := sumOver views stats.

(** The views that the samples give to the key [k]: those of the last
    sample with that key, 0 without one. *)
Definition viewsOn (h : Host) (daily : list DailyStat) (k : string) : Z :=
  from_option views 0 (lastOn h daily k).

(** Concrete inputs on which the properties below are exercised. *)
Module Sample.

Definition profile : Profile.t :=
  {| Profile.username := "ada"; Profile.name := "Ada"; Profile.bio := "";
     Profile.links := Some [ {| Profile.url := "https://a.example" |} ];
     Profile.milestones := None; Profile.tags := Some [];
     Profile.socials := Some ["mastodon"]; Profile.testimonials := Some ["t"] |}.

Definition daily : list DailyStat :=
  [ {| views := 1; date := Str "2024-01-29" |};
    {| views := 5; date := Str "2024-01-29T18:00:00.000Z" |};
    {| views := 9; date := Str "2024-01-01" |};
    {| views := 4; date := Str "2023-12-25" |} ].

Definition stats : Stats.t :=
  {| Stats.links_individual :=
       [ {| Stats.url := "https://a.example"; Stats.clicks := 3 |};
         {| Stats.url := "https://gone.example"; Stats.clicks := 8 |};
         {| Stats.url := "https://a.example"; Stats.clicks := 4 |} ];
     Stats.links_clicks := 15;
     Stats.profile_daily := daily;
     Stats.profile_monthly := 19;
     Stats.profile_total := 19 |}.

(** 2024-01-30T12:00:00Z *)
Definition now : Z := 1706616000000.

(** 2024-03-31T22:30:00Z and 2024-03-31T23:30:00Z: 00:30 and 01:30 on
    1 April in Berlin, the day after the clocks went forward. *)
Definition berlinEarly : Z := 1711924200000.
Definition berlinLate : Z := 1711927800000.

(** A sample dated 2024-03-02T00:00:00Z, 29 days before [berlinLate]'s day. *)
Definition march2 : DailyStat :=
  {| views := 7; date := DateObj (Some 1709337600000) |}.

End Sample.

(** * Properties *)

(** ** The result monad and the array callbacks *)

Lemma bind_Ok {A B} (a : A) (k : A -> result B) : (Ok a ≫= k) = k a.
Proof. reflexivity. Qed.

Lemma bind_Ok_inv {A B} (r : result A) (k : A -> result B) b :
  (r ≫= k) = Ok b -> exists a, r = Ok a /\ k a = Ok b.
Proof. destruct r as [a|e]; [eauto | discriminate]. Qed.

(** Peels the binds off a hypothesis [x ← r; ... = Ok b]. *)
Ltac bind_inv H :=
  repeat (let a := fresh "a" in
          let Ha := fresh "H" a in
          apply bind_Ok_inv in H as (a & Ha & H)).

Lemma arrayMap_Ok {A B} (f : A -> result B) (g : A -> B) l :
  (forall a, a ∈ l -> f a = Ok (g a)) -> arrayMap f l = Ok (g <$> l).
Proof.
  induction l as [|a l IH]; intros H; [reflexivity|].
  simpl. rewrite H by left. rewrite bind_Ok, IH; [reflexivity|].
  intros b Hb. apply H. by right.
Qed.

Lemma arrayMap_Ok_inv {A B} (f : A -> result B) l bs :
  arrayMap f l = Ok bs -> Forall2 (fun a b => f a = Ok b) l bs.
Proof.
  revert bs. induction l as [|a l IH]; intros bs H; simpl in H.
  - injection H as <-. constructor.
  - apply bind_Ok_inv in H as (b & Hb & H).
    apply bind_Ok_inv in H as (bs' & Hbs & H). injection H as <-.
    constructor; auto.
Qed.

(** The first callback that throws decides the outcome; here every throw is
    the same exception. *)
Lemma arrayMap_Throw {A B} (f : A -> result B) l e :
  Exists (fun a => f a = Throw e) l ->
  Forall (fun a => f a = Throw e \/ exists b, f a = Ok b) l ->
  arrayMap f l = Throw e.
Proof.
  induction l as [|a l IH]; intros Hex Hall; [by apply Exists_nil in Hex|].
  apply Forall_cons in Hall as [Ha Hall]. simpl.
  destruct Ha as [Ha|[b Ha]]; rewrite Ha; [reflexivity|].
  rewrite bind_Ok. apply Exists_cons in Hex as [Hex|Hex]; [congruence|].
  by rewrite IH.
Qed.

Lemma arrayMap_ext {A B} (f g : A -> result B) l :
  (forall a, a ∈ l -> f a = g a) -> arrayMap f l = arrayMap g l.
Proof.
  induction l as [|a l IH]; intros H; [reflexivity|].
  simpl. rewrite (H a) by left. rewrite IH; [reflexivity|].
  intros b Hb. apply H. by right.
Qed.

(** ** The calendar *)

Section CalendarFacts.
Import Calendar.

Lemma MonthFromTime_range t : 0 <= MonthFromTime t <= 11.
Proof. unfold MonthFromTime. repeat case_match; lia. Qed.

(** [MakeDay] undoes the split of a time value into year, month and date,
    whatever date is asked for: this is how [setDate] moves by days. *)
Lemma MakeDay_civil t dt :
  MakeDay (YearFromTime t) (MonthFromTime t) dt = Day t + (dt - DateFromTime t).
Proof.
  pose proof (MonthFromTime_range t) as Hm.
  unfold MakeDay, DateFromTime, DayWithinYear, InLeapYear.
  rewrite Z.div_small, Z.mod_small, Z.add_0_r by lia. lia.
Qed.

Lemma DayFromYear_era e r :
  DayFromYear (1601 + 400 * e + r) =
  146097 * e + (365 * r + r / 4 - r / 100 + r / 400) - 134774.
Proof. unfold DayFromYear. Z.div_mod_to_equations. lia. Qed.

Lemma DayFromYear_succ y : DayFromYear (y + 1) = DayFromYear y + DaysInYear y.
Proof.
  unfold DayFromYear, DaysInYear.
  repeat case_match; simpl negb in *; Z.div_mod_to_equations; lia.
Qed.

Lemma DayFromYear_mono y1 y2 : y1 <= y2 -> DayFromYear y1 <= DayFromYear y2.
Proof. unfold DayFromYear. intros H. Z.div_mod_to_equations. lia. Qed.

(** The year of a day inside its 400-year cycle. *)
Lemma yearOfEra_bounds doe :
  0 <= doe < 146097 ->
  let r := (doe - doe / 1460 + doe / 36524 - doe / 146096) / 365 in
  0 <= r <= 399 /\
  365 * r + r / 4 - r / 100 <= doe
    < 365 * (r + 1) + (r + 1) / 4 - (r + 1) / 100 + (r + 1) / 400.
Proof. intros H r. subst r. Z.div_mod_to_equations. lia. Qed.

(** [YearFromDay] meets the specification's definition of the year of a
    day: the year starts on or before the day, the next year after it. *)
Lemma YearFromDay_spec d :
  DayFromYear (YearFromDay d) <= d < DayFromYear (YearFromDay d + 1).
Proof.
  unfold YearFromDay.
  set (n := d + 134774).
  pose proof (Z.div_mod n 146097 ltac:(lia)) as Hn.
  pose proof (Z.mod_pos_bound n 146097 ltac:(lia)) as Hdoe.
  set (era := n / 146097) in *. set (doe := n mod 146097) in *.
  pose proof (yearOfEra_bounds doe Hdoe) as [Hr Hb]. cbv zeta in Hr, Hb.
  set (r := (doe - doe / 1460 + doe / 36524 - doe / 146096) / 365) in *.
  replace (1601 + 400 * era + r + 1) with (1601 + 400 * era + (r + 1)) by lia.
  rewrite !DayFromYear_era.
  replace (r / 400) with 0 by (symmetry; apply Z.div_small; lia).
  lia.
Qed.

Lemma YearFromDay_largest d y : DayFromYear y <= d -> y <= YearFromDay d.
Proof.
  intros H. destruct (Z.le_gt_cases y (YearFromDay d)) as [|Hgt]; [done|].
  pose proof (YearFromDay_spec d) as [_ Hd].
  pose proof (DayFromYear_mono (YearFromDay d + 1) y ltac:(lia)). lia.
Qed.

Lemma DayWithinYear_range t :
  0 <= DayWithinYear t < DaysInYear (YearFromTime t).
Proof.
  unfold DayWithinYear, YearFromTime.
  pose proof (YearFromDay_spec (Day t)) as H.
  rewrite DayFromYear_succ in H. lia.
Qed.

Lemma DaysInYear_cases y : DaysInYear y = 365 \/ DaysInYear y = 366.
Proof. unfold DaysInYear. repeat case_match; auto. Qed.

Lemma DateFromTime_range t : 1 <= DateFromTime t <= 31.
Proof.
  pose proof (DayWithinYear_range t) as H.
  unfold DateFromTime, MonthFromTime, InLeapYear in *.
  destruct (DaysInYear_cases (YearFromTime t)) as [E|E]; rewrite E in *; simpl;
    repeat case_match; simpl; lia.
Qed.

Lemma Day_of_day d : Day (d * msPerDay) = d.
Proof. unfold Day, msPerDay. apply Z.div_mul. lia. Qed.

(** Year, month and date determine the day. *)
Lemma civil_inj t1 t2 :
  YearFromTime t1 = YearFromTime t2 ->
  MonthFromTime t1 = MonthFromTime t2 ->
  DateFromTime t1 = DateFromTime t2 ->
  Day t1 = Day t2.
Proof.
  intros Hy Hm Hd.
  pose proof (MakeDay_civil t1 (DateFromTime t1)) as H1.
  pose proof (MakeDay_civil t2 (DateFromTime t2)) as H2.
  rewrite Hy, Hm, Hd in H1. lia.
Qed.

(** The years of the time values that [TimeClip] lets through. *)
Lemma YearFromTime_clip t :
  Z.abs t <= 8640000000000000 -> -271821 <= YearFromTime t <= 275760.
Proof.
  intros H. unfold YearFromTime, YearFromDay, Day, msPerDay.
  Z.div_mod_to_equations. lia.
Qed.

Lemma TimeClip_Some t : Z.abs t <= 8640000000000000 -> TimeClip t = Some t.
Proof. intros H. unfold TimeClip. by rewrite (proj2 (Z.leb_le _ _) H). Qed.

Lemma TimeClip_inv t u :
  TimeClip t = Some u -> u = t /\ Z.abs t <= 8640000000000000.
Proof.
  unfold TimeClip. destruct (Z.leb_spec (Z.abs t) 8640000000000000); [|done].
  intros [= <-]. done.
Qed.

End CalendarFacts.

(** ** ISO dates as strings *)

Section TextFacts.
Import Calendar Text.

Lemma app_String c s r : String c s +:+ r = String c (s +:+ r).
Proof. reflexivity. Qed.

Lemma app_one c r : String c EmptyString +:+ r = String c r.
Proof. reflexivity. Qed.

Lemma String_inj c1 s1 c2 s2 :
  String c1 s1 = String c2 s2 -> c1 = c2 /\ s1 = s2.
Proof. intros H. by injection H. Qed.

Lemma string_length_app (a b : string) :
  String.length (a +:+ b) = (String.length a + String.length b)%nat.
Proof.
  induction a as [|c a IH]; [reflexivity|].
  rewrite app_String. simpl. by rewrite IH.
Qed.

(** Two concatenations with heads of equal length agree part by part. *)
Lemma app_inj_length (a1 a2 b1 b2 : string) :
  String.length a1 = String.length a2 ->
  a1 +:+ b1 = a2 +:+ b2 -> a1 = a2 /\ b1 = b2.
Proof.
  revert a2. induction a1 as [|c a1 IH]; intros [|c' a2] Hl H;
    simpl in Hl; try discriminate.
  - by split.
  - rewrite !app_String in H. injection H as -> H. injection Hl as Hl.
    by destruct (IH a2 Hl H) as [-> ->].
Qed.

Lemma hasChar_app c a b : hasChar c (a +:+ b) = hasChar c a || hasChar c b.
Proof.
  induction a as [|c' a IH]; [reflexivity|].
  rewrite app_String. simpl. rewrite IH. by rewrite orb_assoc.
Qed.

(** [split(sep)[0]] is what stands before the first separator. *)
Lemma split_first sep a b :
  hasChar sep a = false ->
  nth 0 (split sep (a +:+ String sep b)) EmptyString = a.
Proof.
  induction a as [|c a IH]; intros H.
  - change (EmptyString +:+ String sep b) with (String sep b).
    simpl. by rewrite Ascii.eqb_refl.
  - rewrite app_String. simpl in *. apply orb_false_iff in H as [Hc Ha].
    rewrite Hc. specialize (IH Ha).
    destruct (split sep (a +:+ String sep b)); simpl in *; by subst.
Qed.

Lemma digitValue_digitChar d :
  0 <= d < 10 -> Hosts.digitValue (digitChar d) = Some d.
Proof.
  intros H. rewrite <- (Z2Nat.id d) at 2 by lia.
  unfold digitChar. assert (Z.to_nat d < 10)%nat as Hn by lia.
  revert Hn. generalize (Z.to_nat d). intros n Hn.
  do 10 (destruct n as [|n]; [reflexivity|]). lia.
Qed.

Lemma digitChar_inj a b :
  0 <= a < 10 -> 0 <= b < 10 -> digitChar a = digitChar b -> a = b.
Proof.
  intros Ha Hb H. apply digitValue_digitChar in Ha, Hb. congruence.
Qed.

(** A digit is never a character that is not a digit. *)
Lemma digitChar_plain d c :
  Hosts.digitValue c = None -> Ascii.eqb (digitChar d) c = false.
Proof.
  intros Hc. apply Ascii.eqb_neq. intros <-.
  unfold digitChar in Hc. revert Hc. generalize (Z.to_nat d). intros n.
  do 10 (destruct n as [|n]; [by cbv|]). by destruct n.
Qed.

Lemma length_padded k n : String.length (padded k n) = k.
Proof. induction k; simpl; auto. Qed.

Lemma hasChar_padded c k n :
  Hosts.digitValue c = None -> hasChar c (padded k n) = false.
Proof.
  intros Hc. induction k as [|k IH]; [reflexivity|].
  simpl. by rewrite digitChar_plain, IH.
Qed.

Lemma padded_inj_mod k a b :
  padded k a = padded k b -> a mod 10 ^ Z.of_nat k = b mod 10 ^ Z.of_nat k.
Proof.
  induction k as [|k IH]; intros H.
  - simpl. by rewrite !Z.mod_1_r.
  - simpl in H. injection H as Hd Hr. specialize (IH Hr).
    apply digitChar_inj in Hd; [|by apply Z.mod_pos_bound..].
    rewrite Nat2Z.inj_succ, Z.pow_succ_r by lia.
    rewrite (Z.mul_comm 10).
    rewrite !Z.rem_mul_r by lia. congruence.
Qed.

Lemma padded_inj k a b :
  0 <= a < 10 ^ Z.of_nat k -> 0 <= b < 10 ^ Z.of_nat k ->
  padded k a = padded k b -> a = b.
Proof.
  intros Ha Hb H. apply padded_inj_mod in H.
  by rewrite !Z.mod_small in H.
Qed.

Lemma length_isoYear y :
  String.length (isoYear y) = if (0 <=? y) && (y <=? 9999) then 4%nat else 7%nat.
Proof.
  unfold isoYear. destruct ((0 <=? y) && (y <=? 9999)); [apply length_padded|].
  change (S (String.length (padded 6 (Z.abs y))) = 7%nat).
  by rewrite length_padded.
Qed.

Lemma isoYear_inj y1 y2 :
  Z.abs y1 < 10 ^ 6 -> Z.abs y2 < 10 ^ 6 -> isoYear y1 = isoYear y2 -> y1 = y2.
Proof.
  intros H1 H2 H.
  pose proof (f_equal String.length H) as Hl. rewrite !length_isoYear in Hl.
  unfold isoYear in H.
  destruct ((0 <=? y1) && (y1 <=? 9999)) eqn:E1,
           ((0 <=? y2) && (y2 <=? 9999)) eqn:E2; try discriminate.
  - apply (padded_inj 4) in H; [done|simpl; lia..].
  - apply String_inj in H as [Hs Hp]. apply (padded_inj 6) in Hp; [|simpl; lia..].
    destruct (y1 <? 0) eqn:S1, (y2 <? 0) eqn:S2; try discriminate; lia.
Qed.

(** The date part depends on the day of the time value only ... *)
Lemma isoDate_Day t1 t2 : Day t1 = Day t2 -> isoDate t1 = isoDate t2.
Proof.
  intros H. unfold isoDate, DateFromTime, MonthFromTime, InLeapYear,
    DayWithinYear, YearFromTime. by rewrite H.
Qed.

(** ... and two time values with the same date part are on the same day. *)
Lemma isoDate_inj t1 t2 :
  Z.abs t1 <= 8640000000000000 -> Z.abs t2 <= 8640000000000000 ->
  isoDate t1 = isoDate t2 -> Day t1 = Day t2.
Proof.
  intros H1 H2 H.
  apply YearFromTime_clip in H1, H2.
  pose proof (MonthFromTime_range t1). pose proof (MonthFromTime_range t2).
  pose proof (DateFromTime_range t1). pose proof (DateFromTime_range t2).
  unfold isoDate in H.
  pose proof (f_equal String.length H) as Hl.
  rewrite !string_length_app, !length_padded, !length_isoYear in Hl.
  apply app_inj_length in H as [Hy H].
  2:{ rewrite !length_isoYear. repeat case_match; simpl in Hl; lia. }
  apply isoYear_inj in Hy; [|lia..].
  rewrite app_one in H. apply String_inj in H as [_ H].
  apply app_inj_length in H as [Hm H]; [|by rewrite !length_padded].
  apply (padded_inj 2) in Hm; [|simpl; lia..].
  rewrite app_one in H. apply String_inj in H as [_ H].
  apply (padded_inj 2) in H; [|simpl; lia..].
  apply civil_inj; lia.
Qed.

Lemma isoDay_inj d1 d2 :
  Z.abs d1 <= 100000000 -> Z.abs d2 <= 100000000 -> isoDay d1 = isoDay d2 -> d1 = d2.
Proof.
  intros H1 H2 H. unfold isoDay in H.
  apply isoDate_inj in H; [|unfold msPerDay; lia..].
  by rewrite !Day_of_day in H.
Qed.

Lemma hasChar_isoYear y : hasChar "T" (isoYear y) = false.
Proof.
  unfold isoYear. destruct ((0 <=? y) && (y <=? 9999)).
  - by apply hasChar_padded.
  - change (Ascii.eqb (if y <? 0 then "-"%char else "+"%char) "T" ||
            hasChar "T" (padded 6 (Z.abs y)) = false).
    rewrite hasChar_padded by reflexivity. by destruct (y <? 0).
Qed.

Lemma hasChar_isoDate t : hasChar "T" (isoDate t) = false.
Proof.
  unfold isoDate.
  by rewrite !hasChar_app, !hasChar_padded, hasChar_isoYear by reflexivity.
Qed.

(** Line 83 on a valid date yields its date part, on an invalid date the
    [RangeError] of [toISOString]. *)
Lemma dayKey_valid t : dayKey (Some t) = Ok (isoDate t).
Proof.
  unfold dayKey, JSDate.toISOString. rewrite bind_Ok, app_one.
  by rewrite split_first by apply hasChar_isoDate.
Qed.

Lemma dayKey_construct h stat :
  dayKey (JSDate.construct h (date stat)) =
  match sampleKey h stat with
  | Some k => Ok k
  | None => Throw (RangeError "Invalid time value")
  end.
Proof.
  unfold sampleKey. destruct (JSDate.construct h (date stat)) as [t|]; simpl.
  - apply dayKey_valid.
  - reflexivity.
Qed.

Lemma sampleKey_valid h stat : validDate h stat <-> is_Some (sampleKey h stat).
Proof. unfold validDate, sampleKey. by rewrite fmap_is_Some. Qed.

End TextFacts.

(** ** The thirty window keys *)

Example berlin_offsets :
  LocalTZA Hosts.berlin2024 Sample.berlinLate true = 7200000 /\
  JSDate.getDate Hosts.berlin2024 (Some Sample.berlinLate) = Some 1 /\
  JSDate.toISOString (Some Sample.berlinLate) = Ok "2024-03-31T23:30:00.000Z" /\
  JSDate.toISOString
    (JSDate.setDate Hosts.berlin2024 (Some Sample.berlinLate) (Some 0))
    = Ok "2024-03-31T00:30:00.000Z".
Proof. split_and!; vm_compute; reflexivity. Qed.

Example isoParse_examples :
  Hosts.isoParse "2024-01-29" = Some 1706486400000 /\
  Hosts.isoParse "2024-03-31T23:30:00.000Z" = Some Sample.berlinLate /\
  Hosts.isoParse "2024-02-30" = None /\
  Hosts.isoParse "yesterday" = None.
Proof. split_and!; vm_compute; reflexivity. Qed.

Section Window.
Import Calendar Text.
Variables (h : Host) (now : Z).

(** [date.setDate(currentDate.getDate() - index)] moves the local time of
    [now] back by [index] days and reads the result as a local time. *)
Lemma setDate_back index :
  JSDate.setDate h (Some now)
    (d ← JSDate.getDate h (Some now); Some (d - Z.of_nat index))
  = TimeClip (backTime h now index).
Proof.
  unfold JSDate.setDate, JSDate.getDate, backTime. simpl.
  rewrite MakeDay_civil. f_equal. f_equal.
  unfold MakeDate, Day, TimeWithinDay.
  pose proof (Z.div_mod (JSDate.LocalTime h now) msPerDay ltac:(done)). lia.
Qed.

Lemma last30Days_unfold :
  last30Days h now =
  (days ← arrayMap (fun index => dayKey (TimeClip (backTime h now index))) (seq 0 30);
   Ok (reverse days)).
Proof.
  unfold last30Days. f_equal. apply arrayMap_ext. intros index _.
  by rewrite setDate_back.
Qed.

Lemma last30Days_in_range :
  (forall index, (index < 30)%nat ->
     Z.abs (backTime h now index) <= 8640000000000000) ->
  last30Days h now = Ok (backKeys h now).
Proof.
  intros H. rewrite last30Days_unfold.
  rewrite (arrayMap_Ok _ (fun index => isoDate (backTime h now index)));
    [reflexivity|].
  intros index Hi%elem_of_seq. rewrite TimeClip_Some by (apply H; lia).
  apply dayKey_valid.
Qed.

Lemma last30Days_Ok keys :
  last30Days h now = Ok keys ->
  keys = backKeys h now /\
  forall index, (index < 30)%nat ->
    Z.abs (backTime h now index) <= 8640000000000000.
Proof.
  intros H.
  assert (forall index, (index < 30)%nat ->
            Z.abs (backTime h now index) <= 8640000000000000) as Hr.
  { rewrite last30Days_unfold in H.
    apply bind_Ok_inv in H as (days & Hd & _). apply arrayMap_Ok_inv in Hd.
    intros index Hi.
    destruct (Forall2_lookup_l _ _ _ index index Hd) as (k & _ & Hk).
    { apply lookup_seq. lia. }
    simpl in Hk. destruct (TimeClip (backTime h now index)) as [u|] eqn:E;
      [|discriminate].
    by apply TimeClip_inv in E as [_ E]. }
  split; [|done]. rewrite (last30Days_in_range Hr) in H. congruence.
Qed.

(** On a host within a day of UTC the window is in range for every clock
    reading that is 32 days inside the range of [Date]. *)
Lemma backTime_in_range index :
  offsetWithinDay h ->
  Z.abs now <= 8640000000000000 - 32 * msPerDay ->
  (index < 30)%nat ->
  Z.abs (backTime h now index) <= 8640000000000000.
Proof.
  intros Hh Hn Hi. unfold backTime, JSDate.UTC, JSDate.LocalTime.
  pose proof (Hh now true) as H1.
  pose proof (Hh (now + LocalTZA h now true - Z.of_nat index * msPerDay) false) as H2.
  unfold msPerDay in *. lia.
Qed.

Lemma length_backKeys : length (backKeys h now) = 30%nat.
Proof. unfold backKeys. by rewrite length_reverse, length_fmap, length_seq. Qed.

Lemma length_last30Days keys : last30Days h now = Ok keys -> length keys = 30%nat.
Proof. intros [-> _]%last30Days_Ok. apply length_backKeys. Qed.

End Window.

(** *** Hosts with a constant offset *)

Section ConstantOffset.
Import Calendar Text.
Variables (h : Host) (offset : Z).
Hypothesis Hconstant : constantOffset h offset.

Lemma backTime_constant now index :
  backTime h now index = now - Z.of_nat index * msPerDay.
Proof.
  unfold backTime, JSDate.UTC, JSDate.LocalTime. rewrite !Hconstant. lia.
Qed.

Lemma isoDate_back now index :
  isoDate (now - Z.of_nat index * msPerDay) = isoDay (Day now - Z.of_nat index).
Proof.
  apply isoDate_Day. rewrite Day_of_day. unfold Day.
  replace (now - Z.of_nat index * msPerDay)
    with (now + (- Z.of_nat index) * msPerDay) by lia.
  rewrite Z.div_add by done. lia.
Qed.

Lemma reverse_seq_map {A} (f : nat -> A) (n : nat) :
  reverse (f <$> seq 0 n) = (fun i => f (n - 1 - i)%nat) <$> seq 0 n.
Proof.
  apply list_eq. intros i.
  destruct (decide (i < n)%nat) as [Hi|Hi].
  - rewrite reverse_lookup by (rewrite length_fmap, length_seq; lia).
    rewrite length_fmap, length_seq, !list_lookup_fmap, !lookup_seq_lt by lia.
    simpl. do 2 f_equal. lia.
  - rewrite !lookup_ge_None_2; [done|..];
      rewrite ?length_reverse, length_fmap, length_seq; lia.
Qed.

Lemma backKeys_constant now :
  backKeys h now = isoDay <$> windowDays (Day now).
Proof.
  unfold backKeys, windowDays. rewrite reverse_seq_map.
  rewrite <- list_fmap_compose. apply list_fmap_ext.
  intros i x [-> Hx]%lookup_seq. simpl.
  rewrite backTime_constant, isoDate_back. f_equal. lia.
Qed.

Lemma clockInRange_back now index :
  clockInRange now -> (index < 30)%nat ->
  Z.abs (now - Z.of_nat index * msPerDay) <= 8640000000000000.
Proof. unfold clockInRange, msPerDay. lia. Qed.

Lemma constantOffset_last30Days now :
  clockInRange now -> last30Days h now = Ok (isoDay <$> windowDays (Day now)).
Proof.
  intros Hr. rewrite <- backKeys_constant.
  apply last30Days_in_range. intros index Hi.
  rewrite backTime_constant. by apply clockInRange_back.
Qed.

End ConstantOffset.

Lemma elem_of_windowDays today d :
  d ∈ windowDays today <-> today - 29 <= d <= today.
Proof.
  unfold windowDays. rewrite list_elem_of_fmap. split.
  - intros (i & -> & Hi%elem_of_seq). lia.
  - intros H. exists (Z.to_nat (d - (today - 29))). split; [lia|].
    apply elem_of_seq. lia.
Qed.

Lemma NoDup_windowDays today : NoDup (windowDays today).
Proof.
  unfold windowDays. apply NoDup_fmap_2_strong; [|apply NoDup_seq].
  intros i j _ _ H. lia.
Qed.

Lemma Day_clockInRange now :
  clockInRange now -> Z.abs (Calendar.Day now) <= 100000000 - 30.
Proof.
  unfold clockInRange, Calendar.Day, Calendar.msPerDay. intros H.
  Z.div_mod_to_equations. lia.
Qed.

Lemma fixedOffset_constant offset : constantOffset (Hosts.fixedOffset offset) offset.
Proof. by intros t b. Qed.

(** ** The lookup and the series *)

Section Series.
Variable h : Host.

Lemma filter_none {A} (P : A -> Prop) `{forall x, Decision (P x)} (l : list A) :
  (forall x, x ∈ l -> ~ P x) -> filter P l = [].
Proof.
  induction l as [|a l IH]; intros H0; [done|].
  rewrite filter_cons_False by (apply H0; left). apply IH.
  intros x Hx. apply H0. by right.
Qed.




(** Only the samples whose key is a window key matter for a window key. *)
Lemma lastOn_window keys daily k :
  k ∈ keys -> lastOn h (filter (inWindow h keys) daily) k = lastOn h daily k.
Proof.
  intros Hk. unfold lastOn. rewrite list_filter_filter. f_equal.
  apply list_filter_iff. intros stat. unfold inWindow. split.
  - by intros [? _].
  - intros Hs. rewrite Hs. done.
Qed.

(** Lines 82-85: when every date is valid the map holds, under each key, the
    last sample with that key. *)
Lemma buildDailyStatsMap_valid daily :
  Forall (validDate h) daily ->
  exists m, buildDailyStatsMap h daily = Ok m /\
            forall k, m !! k = lastOn h daily k.
Proof.
  intros Hv. unfold buildDailyStatsMap.
  rewrite (arrayMap_Ok _ (fun stat => (default EmptyString (sampleKey h stat), stat))).
  2:{ intros stat Hs. rewrite dayKey_construct.
      rewrite Forall_forall in Hv. apply Hv, sampleKey_valid in Hs as [k ->]. done. }
  rewrite bind_Ok. eexists; split; [reflexivity|].
  induction daily as [|stat daily IH] using rev_ind; intros k.
  - done.
  - apply Forall_app in Hv as [Hv [Hs _]%Forall_cons]. specialize (IH Hv).
    rewrite fmap_app, fold_left_app. simpl.
    apply sampleKey_valid in Hs as [ks Hks]. rewrite Hks. simpl.
    unfold lastOn. rewrite filter_app, filter_cons, filter_nil.
    destruct (decide (ks = k)) as [->|Hne].
    + rewrite lookup_insert_eq. rewrite decide_True by done. by rewrite last_snoc.
    + rewrite lookup_insert_ne by done. rewrite decide_False by congruence.
      rewrite app_nil_r. apply IH.
Qed.

Lemma buildDailyStatsMap_Ok daily m :
  buildDailyStatsMap h daily = Ok m ->
  Forall (validDate h) daily /\ forall k, m !! k = lastOn h daily k.
Proof.
  intros H.
  assert (Forall (validDate h) daily) as Hv.
  { unfold buildDailyStatsMap in H.
    apply bind_Ok_inv in H as (entries & He & _). apply arrayMap_Ok_inv in He.
    apply Forall_forall. intros stat Hs.
    apply list_elem_of_lookup in Hs as [i Hi].
    destruct (Forall2_lookup_l _ _ _ _ _ He Hi) as (e & _ & Hk).
    apply bind_Ok_inv in Hk as (k & Hk & _).
    rewrite dayKey_construct in Hk. apply sampleKey_valid.
    destruct (sampleKey h stat); [eauto|discriminate]. }
  split; [done|].
  destruct (buildDailyStatsMap_valid daily Hv) as (m' & Hm' & Hl). congruence.
Qed.

Lemma buildDailyStatsMap_invalid daily :
  Exists (fun stat => ~ validDate h stat) daily ->
  buildDailyStatsMap h daily = Throw (RangeError "Invalid time value").
Proof.
  intros Hex. unfold buildDailyStatsMap.
  rewrite (arrayMap_Throw _ _ (RangeError "Invalid time value")); [done| |].
  - eapply Exists_impl; [exact Hex|]. intros stat Hs. simpl in Hs.
    rewrite dayKey_construct. rewrite sampleKey_valid in Hs.
    destruct (sampleKey h stat); [|done]. destruct Hs; eauto.
  - apply Forall_forall. intros stat _. rewrite dayKey_construct.
    destruct (sampleKey h stat); [right; eauto| left; done].
Qed.

Lemma ensureEntries_cons key keys (m : gmap string DailyStat) :
  ensureEntries (key :: keys) m =
  ensureEntries keys (match m !! key with
                      | Some _ => m
                      | None => <[key := placeholder key]> m
                      end).
Proof. reflexivity. Qed.

(** Lines 100-104 leave the samples alone and give every window key without
    a sample a placeholder. *)
Lemma ensureEntries_lookup keys (m : gmap string DailyStat) k :
  ensureEntries keys m !! k =
  match m !! k with
  | Some stat => Some stat
  | None => if decide (k ∈ keys) then Some (placeholder k) else None
  end.
Proof.
  revert m. induction keys as [|key keys IH]; intros m.
  - change (ensureEntries [] m) with m.
    destruct (m !! k); [done|]. by rewrite decide_False by apply not_elem_of_nil.
  - rewrite ensureEntries_cons, IH. destruct (m !! key) as [s|] eqn:Ekey.
    + destruct (m !! k) eqn:Ek; [done|].
      assert (k ≠ key) by congruence.
      apply decide_ext. rewrite elem_of_cons. split; [by right | by intros [?|?]].
    + destruct (decide (key = k)) as [->|Hne].
      * rewrite lookup_insert_eq, Ekey. rewrite decide_True by left. done.
      * rewrite lookup_insert_ne by done. destruct (m !! k); [done|].
        apply decide_ext. rewrite elem_of_cons. split; [by right | by intros [?|?]].
Qed.

Lemma ensureEntries_is_Some keys (m : gmap string DailyStat) k :
  k ∈ keys -> is_Some (ensureEntries keys m !! k).
Proof.
  intros Hk. rewrite ensureEntries_lookup.
  destruct (m !! k); [eauto|]. rewrite decide_True by done. eauto.
Qed.

(** Lines 113-117 push nothing when the map has every key. *)
Lemma fillMissing_present keys (m : gmap string DailyStat) stats :
  (forall k, k ∈ keys -> is_Some (m !! k)) -> fillMissing keys m stats = stats.
Proof.
  revert stats. induction keys as [|key keys IH]; intros stats H; [done|].
  simpl. destruct (H key) as [s ->]; [left|]. apply IH.
  intros k Hk. apply H. by right.
Qed.

Lemma buildStats_ensure keys' keys (m : gmap string DailyStat) :
  keys' ⊆ keys ->
  buildStats keys' (ensureEntries keys m) = Ok (entryOn m <$> keys').
Proof.
  intros Hsub. unfold buildStats. apply arrayMap_Ok. intros k Hk.
  rewrite ensureEntries_lookup. unfold entryOn.
  destruct (m !! k); [done|]. by rewrite decide_True by auto.
Qed.

(** The series, once the map and the window keys are there. *)
Lemma normalizeDaily_steps now daily m keys :
  buildDailyStatsMap h daily = Ok m ->
  last30Days h now = Ok keys ->
  normalizeDaily h now daily = Ok (entryOn m <$> keys).
Proof.
  intros Hm Hk. unfold normalizeDaily. rewrite Hm, bind_Ok, Hk, bind_Ok.
  rewrite buildStats_ensure by done. rewrite bind_Ok.
  rewrite fillMissing_present; [done|].
  intros k. apply ensureEntries_is_Some.
Qed.

Lemma normalizeDaily_Ok_inv now daily series :
  normalizeDaily h now daily = Ok series ->
  exists m last30,
    buildDailyStatsMap h daily = Ok m /\ last30Days h now = Ok last30 /\
    series = entryOn m <$> last30.
Proof.
  intros H. pose proof H as H'. unfold normalizeDaily in H'.
  apply bind_Ok_inv in H' as (m & Hm & H').
  apply bind_Ok_inv in H' as (last30 & Hk & _).
  exists m, last30. split_and!; [done..|].
  rewrite (normalizeDaily_steps _ _ _ _ Hm Hk) in H. congruence.
Qed.

(** The normalisation returns a series when every sample has a valid date
    and the thirty time values of the window are in range. *)
Lemma normalizeDaily_total now daily :
  Forall (validDate h) daily ->
  (forall index, (index < 30)%nat ->
     Z.abs (backTime h now index) <= 8640000000000000) ->
  exists series, normalizeDaily h now daily = Ok series.
Proof.
  intros Hv Hr.
  destruct (buildDailyStatsMap_valid daily Hv) as (m & Hm & _).
  pose proof (last30Days_in_range h now Hr) as Hk.
  eexists. by apply (normalizeDaily_steps _ _ _ _ Hm Hk).
Qed.

End Series.

(** ** The normalised series *)

(** The example of the specification: today is 2024-01-30, two samples. *)
Example series_of_two_samples :
  exists series,
    normalizeDaily Hosts.utc Sample.now
      [ {| views := 5; date := Str "2024-01-29" |};
        {| views := 9; date := Str "2024-01-01" |} ] = Ok series /\
    length series = 30%nat /\
    series !! 0%nat = Some {| views := 9; date := Str "2024-01-01" |} /\
    series !! 28%nat = Some {| views := 5; date := Str "2024-01-29" |} /\
    series !! 29%nat = Some {| views := 0; date := Str "2024-01-30" |} /\
    length (filter (fun entry => views entry = 0) series) = 28%nat.
Proof. eexists. split_and!; vm_compute; reflexivity. Qed.

(** C2: whenever lines 82-119 assign a series to [data.profile.daily], it
    has exactly 30 entries, the second zero-fill loop (lines 113-117) having
    pushed nothing onto the array built by lines 107-110; and a series is
    assigned for every collection of samples with valid dates (empty,
    unordered or reaching outside the window) as long as the thirty window
    time values are in the range of [Date]. *)
Theorem series_has_thirty_entries h now daily :
  (forall series, normalizeDaily h now daily = Ok series ->
     length series = 30%nat /\
     exists m last30 stats,
       buildDailyStatsMap h daily = Ok m /\ last30Days h now = Ok last30 /\
       buildStats last30 (ensureEntries last30 m) = Ok stats /\
       fillMissing last30 (ensureEntries last30 m) stats = stats /\
       series = stats) /\
  (Forall (validDate h) daily ->
   (forall index, (index < 30)%nat ->
      Z.abs (backTime h now index) <= 8640000000000000) ->
   exists series, normalizeDaily h now daily = Ok series).
Proof.
  split; [|apply normalizeDaily_total].
  intros series H.
  destruct (normalizeDaily_Ok_inv _ _ _ _ H) as (m & last30 & Hm & Hk & ->).
  split.
  - rewrite length_fmap. by eapply length_last30Days.
  - exists m, last30, (entryOn m <$> last30). split_and!; try done.
    + by apply buildStats_ensure.
    + apply fillMissing_present. intros k. apply ensureEntries_is_Some.
Qed.

Lemma series_has_thirty_entries_witness :
  exists series,
    normalizeDaily Hosts.utc Sample.now Sample.daily = Ok series /\
    length series = 30%nat.
Proof.
  eexists. split; [vm_compute; reflexivity|].
  apply (proj1 (series_has_thirty_entries Hosts.utc Sample.now Sample.daily)).
  vm_compute. reflexivity.
Defined.







(** ** The window on hosts with and without clock changes *)

(** On a host whose offset from UTC never changes, the dates of the series
    are the thirty UTC days [today - 29 .. today] in ascending order, one
    entry each: no gap, no repetition. *)
Theorem constant_offset_window h offset now daily :
  constantOffset h offset -> clockInRange now -> Forall (validDate h) daily ->
  exists series,
    normalizeDaily h now daily = Ok series /\
    date <$> series = (fun d => Str (isoDay d)) <$> windowDays (Calendar.Day now) /\
    NoDup (date <$> series).
Proof.
  intros Hc Hr Hv.
  destruct (buildDailyStatsMap_valid h daily Hv) as (m & Hm & _).
  pose proof (constantOffset_last30Days h offset Hc now Hr) as Hk.
  eexists. split; [by apply (normalizeDaily_steps _ _ _ _ _ Hm Hk)|].
  assert (date <$> (entryOn m <$> (isoDay <$> windowDays (Calendar.Day now)))
          = (fun d => Str (isoDay d)) <$> windowDays (Calendar.Day now)) as ->.
  { rewrite <- !list_fmap_compose. by apply list_fmap_ext. }
  split; [done|].
  apply NoDup_fmap_2_strong; [|apply NoDup_windowDays].
  intros d1 d2 H1%elem_of_windowDays H2%elem_of_windowDays [= H].
  apply Day_clockInRange in Hr. apply isoDay_inj in H; lia.
Qed.

Lemma constant_offset_window_witness :
  exists series,
    normalizeDaily Hosts.utc Sample.now Sample.daily = Ok series /\
    date <$> series =
      (fun d => Str (isoDay d)) <$> windowDays (Calendar.Day Sample.now) /\
    NoDup (date <$> series).
Proof.
  apply (constant_offset_window Hosts.utc 0 Sample.now Sample.daily).
  - apply fixedOffset_constant.
  - unfold clockInRange. vm_compute. discriminate.
  - apply (bool_decide_unpack _). vm_compute. exact I.
Defined.

(** On such a host the props depend on the instant of the request through
    its UTC day only. *)
Theorem constant_offset_same_day h offset now1 now2 profile stats BASE_URL :
  constantOffset h offset -> clockInRange now1 -> clockInRange now2 ->
  Calendar.Day now1 = Calendar.Day now2 ->
  buildProps h now1 profile stats BASE_URL = buildProps h now2 profile stats BASE_URL.
Proof.
  intros Hc H1 H2 Hd. unfold buildProps, normalizeDaily.
  rewrite (constantOffset_last30Days h offset Hc now1 H1).
  rewrite (constantOffset_last30Days h offset Hc now2 H2).
  by rewrite Hd.
Qed.

Lemma constant_offset_same_day_witness :
  buildProps (Hosts.fixedOffset 19800000) Sample.now Sample.profile
    (Ok Sample.stats) "https://linkfree.example"
  = buildProps (Hosts.fixedOffset 19800000) (Sample.now + 39600000) Sample.profile
      (Ok Sample.stats) "https://linkfree.example".
Proof.
  apply (constant_offset_same_day (Hosts.fixedOffset 19800000) 19800000).
  - apply fixedOffset_constant.
  - unfold clockInRange. vm_compute. discriminate.
  - unfold clockInRange. vm_compute. discriminate.
  - vm_compute. reflexivity.
Defined.

(** C1, on a host with daylight saving time: in Berlin, at 01:30 on 1 April
    2024 (23:30 UTC on 31 March, the day the clocks went forward), the
    series of the empty collection is dated 2024-03-03 .. 2024-03-31 and
    2024-03-31 once more.  A day is repeated, and the day 29 days before
    today, 2024-03-02, is not there. *)
Theorem dst_window_repeats_a_day :
  exists series,
    normalizeDaily Hosts.berlin2024 Sample.berlinLate [] = Ok series /\
    date <$> series =
      Str <$> ["2024-03-03"; "2024-03-04"; "2024-03-05"; "2024-03-06";
               "2024-03-07"; "2024-03-08"; "2024-03-09"; "2024-03-10";
               "2024-03-11"; "2024-03-12"; "2024-03-13"; "2024-03-14";
               "2024-03-15"; "2024-03-16"; "2024-03-17"; "2024-03-18";
               "2024-03-19"; "2024-03-20"; "2024-03-21"; "2024-03-22";
               "2024-03-23"; "2024-03-24"; "2024-03-25"; "2024-03-26";
               "2024-03-27"; "2024-03-28"; "2024-03-29"; "2024-03-30";
               "2024-03-31"; "2024-03-31"] /\
    ~ NoDup (date <$> series) /\
    isoDay (Calendar.Day Sample.berlinLate) = "2024-03-31" /\
    isoDay (Calendar.Day Sample.berlinLate - 29) = "2024-03-02".
Proof.
  eexists. split; [vm_compute; reflexivity|].
  split; [reflexivity|]. split; [|split; vm_compute; reflexivity].
  intros H. apply (bool_decide_pack _) in H. by vm_compute in H.
Qed.

(** C6, same host and instant: the sample of 2 March 2024 (UTC), the first
    day of the UTC window [today - 29 .. today], is keyed 2024-03-02 by line
    83, but the window keys of lines 93-97, computed with the local-time
    [getDate] and [setDate], do not contain that key: the sample is dropped
    and the whole series is 0.  With the clock of the host on UTC the same
    sample is the first entry of the series. *)
Theorem dst_window_drops_a_day :
  let today := Calendar.Day Sample.berlinLate in
  sampleKey Hosts.berlin2024 Sample.march2 = Some (isoDay (today - 29)) /\
  (exists series,
     normalizeDaily Hosts.berlin2024 Sample.berlinLate [Sample.march2] = Ok series /\
     Forall (fun entry => views entry = 0) series /\
     Str (isoDay (today - 29)) ∉ date <$> series) /\
  (exists series,
     normalizeDaily Hosts.utc Sample.berlinLate [Sample.march2] = Ok series /\
     series !! 0%nat = Some {| views := 7; date := Str (isoDay (today - 29)) |}).
Proof.
  intros today. split; [vm_compute; reflexivity|]. split.
  - eexists. split; [vm_compute; reflexivity|]. split.
    + apply (bool_decide_unpack _). by vm_compute.
    + apply (bool_decide_unpack _). by vm_compute.
  - eexists. split; [vm_compute; reflexivity|]. vm_compute. reflexivity.
Qed.

(** C8, same host: 22:30 UTC and 23:30 UTC on 31 March 2024 are the same UTC
    day and the same Berlin day (1 April, 00:30 and 01:30), and with the same
    profile and statistics the props differ. *)
Theorem dst_same_day_other_props :
  Calendar.Day Sample.berlinEarly = Calendar.Day Sample.berlinLate /\
  Calendar.Day (JSDate.LocalTime Hosts.berlin2024 Sample.berlinEarly) =
    Calendar.Day (JSDate.LocalTime Hosts.berlin2024 Sample.berlinLate) /\
  buildProps Hosts.berlin2024 Sample.berlinEarly Sample.profile (Ok Sample.stats) "" <>
  buildProps Hosts.berlin2024 Sample.berlinLate Sample.profile (Ok Sample.stats) "".
Proof.
  split; [reflexivity|]. split; [reflexivity|].
  intros H. vm_compute in H. discriminate H.
Qed.

(** ** Dates that do not convert *)




(** ** Profile completion *)


Lemma filter_bool_Prop {A} (b : A -> bool) (P : A -> Prop)
    `{forall x, Decision (P x)} (l : list A) :
  (forall x, b x = true <-> P x) -> List.filter b l = filter P l.
Proof.
  intros Hb. induction l as [|a l IH]; [done|].
  simpl. rewrite filter_cons, IH. destruct (b a) eqn:E.
  - by rewrite decide_True by by apply Hb.
  - rewrite decide_False; [done|]. rewrite <- Hb. congruence.
Qed.



Example progress_of_sample :
  computeProgress Sample.profile =
  {| percentage := Some "60"; missing := ["milestones"; "tags"] |}.
Proof. vm_compute. reflexivity. Qed.

(** ** Link statistics *)

Lemma existsb_url pLinks link :
  existsb (fun pLink => String.eqb (Profile.url pLink) (Stats.url link)) pLinks = true
  <-> urlInProfile pLinks link.
Proof.
  unfold urlInProfile. rewrite existsb_exists, Exists_exists.
  split; intros (pLink & Hin & Heq); exists pLink.
  - split; [by apply list_elem_of_In|]. by apply String.eqb_eq.
  - split; [by apply list_elem_of_In|]. by apply String.eqb_eq.
Qed.

(** Lines 78-80, when no callback throws. *)
Lemma arrayFilter_linkInProfile profile individual kept :
  arrayFilter (linkInProfile profile) individual = Ok kept ->
  kept = filter (urlInProfile (default [] (Profile.links profile))) individual.
Proof.
  revert kept. induction individual as [|link individual IH]; intros kept H.
  - by injection H as <-.
  - simpl in H. bind_inv H. injection H as <-.
    rewrite (IH _ Ha0). unfold linkInProfile in Ha.
    destruct (Profile.links profile) as [pLinks|]; [|discriminate].
    injection Ha as <-. simpl. rewrite filter_cons.
    destruct (existsb _ pLinks) eqn:E.
    + by rewrite decide_True by by apply existsb_url.
    + rewrite decide_False; [done|]. rewrite <- existsb_url. congruence.
Qed.

Lemma totalClicks_sum individual : totalClicks individual = sumClicks individual.
Proof.
  unfold totalClicks.
  assert (forall acc, fold_left (fun acc link => acc + Stats.clicks link) individual acc
                      = acc + sumClicks individual) as H.
  { induction individual as [|link individual IH]; intros acc; simpl; [lia|].
    rewrite IH. lia. }
  by rewrite H.
Qed.



(** ** Reading a key back: [Date.parse] on the date part *)

Section ParseFacts.
Import Calendar Text.

Lemma fourDigitYear_year t : fourDigitYear t <-> 0 <= YearFromTime t <= 9999.
Proof.
  unfold fourDigitYear, YearFromTime, YearFromDay, Day, msPerDay.
  split; intros H; Z.div_mod_to_equations; lia.
Qed.

Lemma digitsValue_4 a b c d :
  0 <= a < 10 -> 0 <= b < 10 -> 0 <= c < 10 -> 0 <= d < 10 ->
  Hosts.digitsValue [digitChar a; digitChar b; digitChar c; digitChar d] 0
  = Some (1000 * a + 100 * b + 10 * c + d).
Proof.
  intros. simpl. rewrite !digitValue_digitChar by done. simpl. f_equal; lia.
Qed.

Lemma digitsValue_2 a b :
  0 <= a < 10 -> 0 <= b < 10 ->
  Hosts.digitsValue [digitChar a; digitChar b] 0 = Some (10 * a + b).
Proof.
  intros. simpl. rewrite !digitValue_digitChar by done. simpl. f_equal; lia.
Qed.

Lemma four_digits n :
  0 <= n < 10000 ->
  1000 * ((n / 10 ^ Z.of_nat 3) mod 10) + 100 * ((n / 10 ^ Z.of_nat 2) mod 10) +
  10 * ((n / 10 ^ Z.of_nat 1) mod 10) + n mod 10 = n.
Proof.
  intros H. change (10 ^ Z.of_nat 3) with 1000. change (10 ^ Z.of_nat 2) with 100.
  change (10 ^ Z.of_nat 1) with 10. Z.div_mod_to_equations. lia.
Qed.

Lemma two_digits n :
  0 <= n < 100 -> 10 * ((n / 10 ^ Z.of_nat 1) mod 10) + n mod 10 = n.
Proof.
  intros H. change (10 ^ Z.of_nat 1) with 10. Z.div_mod_to_equations. lia.
Qed.

Lemma civil_Day t1 t2 :
  Day t1 = Day t2 ->
  YearFromTime t1 = YearFromTime t2 /\ MonthFromTime t1 = MonthFromTime t2 /\
  DateFromTime t1 = DateFromTime t2.
Proof.
  intros H. unfold DateFromTime, MonthFromTime, InLeapYear, DayWithinYear,
    YearFromTime. by rewrite H.
Qed.

Lemma app_empty_l r : EmptyString +:+ r = r.
Proof. reflexivity. Qed.

(** [isoParse] reads the date part of [toISOString] back as midnight UTC of
    the same day. *)
Lemma isoParse_isoDate t :
  fourDigitYear t -> Hosts.isoParse (isoDate t) = Some (Day t * msPerDay).
Proof.
  intros Hy. pose proof Hy as Ht. apply fourDigitYear_year in Hy.
  pose proof (MonthFromTime_range t) as Hm.
  pose proof (DateFromTime_range t) as Hd.
  unfold isoDate, isoYear.
  rewrite (proj2 (andb_true_iff _ _)) by (split; apply Z.leb_le; lia).
  cbn [padded]. rewrite !app_String, !app_empty_l.
  unfold Hosts.isoParse. cbv beta iota.
  unfold Hosts.parseDay.
  rewrite digitsValue_4, !digitsValue_2 by (apply Z.mod_pos_bound; lia).
  cbn [mbind option_bind Z.of_nat]. rewrite !Z.pow_0_r, !Z.div_1_r.
  rewrite four_digits, !two_digits by lia.
  replace (MonthFromTime t + 1 - 1) with (MonthFromTime t) by lia.
  rewrite MakeDay_civil, Z.sub_diag, Z.add_0_r.
  unfold MakeDate. rewrite !Z.add_0_r.
  destruct (civil_Day (Day t * msPerDay) t (Day_of_day _)) as (_ & -> & ->).
  rewrite !Z.eqb_refl.
  rewrite (proj2 (Z.leb_le 1 _)), (proj2 (Z.leb_le _ 12)), (proj2 (Z.leb_le 1 _)) by lia.
  cbn [andb mbind option_bind]. rewrite Z.add_0_r. apply TimeClip_Some.
  unfold fourDigitYear, Day, msPerDay in *. Z.div_mod_to_equations. lia.
Qed.

Lemma berlin_readsIsoDates : readsIsoDates Hosts.berlin2024.
Proof. intros t Ht. by apply isoParse_isoDate. Qed.

Lemma fixedOffset_readsIsoDates offset : readsIsoDates (Hosts.fixedOffset offset).
Proof. intros t Ht. by apply isoParse_isoDate. Qed.

End ParseFacts.

(** ** The window on any host *)

Section AnyHost.
Import Calendar Text.
Variables (h : Host) (now : Z).

Lemma elem_of_backKeys k :
  k ∈ backKeys h now <->
  exists index, (index < 30)%nat /\ k = isoDate (backTime h now index).
Proof.
  unfold backKeys. rewrite elem_of_reverse, list_elem_of_fmap. split.
  - intros (index & -> & Hi%elem_of_seq). exists index. split; [lia|done].
  - intros (index & Hi & ->). exists index. split; [done|]. apply elem_of_seq. lia.
Qed.

Lemma backTime_between index :
  offsetWithinDay h -> (index < 30)%nat ->
  now - 31 * msPerDay <= backTime h now index <= now + 2 * msPerDay.
Proof.
  intros Hh Hi. unfold backTime, JSDate.UTC, JSDate.LocalTime.
  pose proof (Hh now true) as H1.
  pose proof (Hh (now + LocalTZA h now true - Z.of_nat index * msPerDay) false) as H2.
  unfold msPerDay in *. lia.
Qed.

Lemma Day_mono t1 t2 : t1 <= t2 -> Day t1 <= Day t2.
Proof. intros H. unfold Day, msPerDay. by apply Z.div_le_mono. Qed.

Lemma Day_add_days t n : Day (t + n * msPerDay) = Day t + n.
Proof. unfold Day. by rewrite Z.div_add. Qed.

(** From one iteration of line 93 to the next the time value goes back, by
    two days at most. *)
Lemma backTime_step index :
  offsetShiftWithinDay h ->
  backTime h now (S index) <= backTime h now index
    <= backTime h now (S index) + 2 * msPerDay.
Proof.
  intros Hh. unfold backTime, JSDate.UTC.
  set (L := JSDate.LocalTime h now).
  pose proof (Hh (L - Z.of_nat index * msPerDay) (L - Z.of_nat (S index) * msPerDay)
                false false) as H.
  rewrite Nat2Z.inj_succ in *. unfold msPerDay in *. lia.
Qed.

Lemma backKeys_days :
  backKeys h now =
  isoDay <$> reverse ((fun index => Day (backTime h now index)) <$> seq 0 30).
Proof.
  unfold backKeys. rewrite fmap_reverse, <- list_fmap_compose. f_equal.
  apply list_fmap_ext. intros i index _. simpl.
  apply isoDate_Day. by rewrite Day_of_day.
Qed.

(** Line 95, [date.setDate(currentDate.getDate() - index)], whatever the day
    of the month and the index: the new time value is the local time of [now]
    moved back by [index] whole days (across the ends of months and years,
    where the argument of [setDate] is 0 or negative), with the local time of
    day kept, read back as a time of the host's zone. *)
Theorem setDate_moves_whole_days index :
  let local := JSDate.LocalTime h now in
  let moved := local - Z.of_nat index * msPerDay in
  JSDate.setDate h (Some now)
    (d ← JSDate.getDate h (Some now); Some (d - Z.of_nat index))
  = TimeClip (JSDate.UTC h moved) /\
  Day moved = Day local - Z.of_nat index /\
  TimeWithinDay moved = TimeWithinDay local.
Proof.
  intros local moved. split_and!.
  - apply setDate_back.
  - unfold moved, Day.
    replace (local - Z.of_nat index * msPerDay)
      with (local + (- Z.of_nat index) * msPerDay) by lia.
    rewrite Z.div_add by done. lia.
  - unfold moved, TimeWithinDay.
    replace (local - Z.of_nat index * msPerDay)
      with (local + (- Z.of_nat index) * msPerDay) by lia.
    by rewrite Z.mod_add.
Qed.

(** Lines 92-97 do not throw on a host within a day of UTC, for a clock at
    least 32 days inside the range of [Date]: they yield thirty keys, each
    the date part of one of the thirty moved time values. *)
Theorem window_generated :
  offsetWithinDay h ->
  Z.abs now <= 8640000000000000 - 32 * msPerDay ->
  exists keys, last30Days h now = Ok keys /\ length keys = 30%nat /\
    forall k, k ∈ keys ->
      exists index, (index < 30)%nat /\ k = isoDate (backTime h now index).
Proof.
  intros Hh Hn. exists (backKeys h now). split_and!.
  - apply last30Days_in_range. intros index Hi. by apply backTime_in_range.
  - apply length_backKeys.
  - intros k Hk. by apply elem_of_backKeys.
Qed.

(** On any host whose offset changes by a day at most (a host with daylight
    saving time too) the window keys are the dates of days that never go
    back: from one key to the next the day stays or advances, by two days at
    most, and the last key is today, yesterday or tomorrow in UTC. *)
Theorem window_never_goes_back keys :
  offsetShiftWithinDay h ->
  last30Days h now = Ok keys ->
  exists days,
    keys = isoDay <$> days /\ length days = 30%nat /\
    (forall i d d', days !! i = Some d -> days !! S i = Some d' -> d <= d' <= d + 2) /\
    (forall d, days !! 29%nat = Some d -> Day now - 1 <= d <= Day now + 1).
Proof.
  intros Hh [-> _]%last30Days_Ok.
  exists (reverse ((fun index => Day (backTime h now index)) <$> seq 0 30)).
  split_and!.
  - apply backKeys_days.
  - by rewrite length_reverse, length_fmap, length_seq.
  - intros i d d' Hd Hd'.
    assert (S i < 30)%nat as Hi.
    { apply lookup_lt_Some in Hd'.
      by rewrite length_reverse, length_fmap, length_seq in Hd'. }
    rewrite reverse_lookup in Hd, Hd'
      by (rewrite length_fmap, length_seq; lia).
    rewrite length_fmap, length_seq, list_lookup_fmap, lookup_seq_lt in Hd, Hd' by lia.
    injection Hd as <-. injection Hd' as <-. simpl.
    replace (29 - i)%nat with (S (28 - i))%nat by lia.
    pose proof (backTime_step (28 - i) Hh) as [H1 H2].
    split; [by apply Day_mono|].
    rewrite <- Day_add_days. by apply Day_mono.
  - intros d Hd.
    rewrite reverse_lookup in Hd by (rewrite length_fmap, length_seq; lia).
    rewrite length_fmap, length_seq, list_lookup_fmap, lookup_seq_lt in Hd by lia.
    injection Hd as <-. simpl. unfold backTime, JSDate.UTC, JSDate.LocalTime.
    pose proof (Hh now (now + LocalTZA h now true - Z.of_nat 0 * msPerDay) true false) as H.
    replace (Day now - 1) with (Day now + -1) by lia.
    rewrite <- (Day_add_days now 1), <- (Day_add_days now (-1)).
    split; apply Day_mono; unfold msPerDay in *; lia.
Qed.

End AnyHost.

Lemma berlin_offsetWithinDay : offsetWithinDay Hosts.berlin2024.
Proof.
  intros t b. unfold Calendar.msPerDay. simpl. repeat case_match; lia.
Qed.

Lemma berlin_offsetShiftWithinDay : offsetShiftWithinDay Hosts.berlin2024.
Proof.
  intros t t' b b'. unfold Calendar.msPerDay. simpl. repeat case_match; lia.
Qed.

Lemma window_generated_witness :
  exists keys, last30Days Hosts.berlin2024 Sample.berlinLate = Ok keys /\
               length keys = 30%nat.
Proof.
  destruct (window_generated Hosts.berlin2024 Sample.berlinLate)
    as (keys & Hk & Hl & _).
  - apply berlin_offsetWithinDay.
  - vm_compute. discriminate.
  - eauto.
Defined.

Lemma window_never_goes_back_witness :
  exists days,
    length days = 30%nat /\
    (forall i d d', days !! i = Some d -> days !! S i = Some d' -> d <= d' <= d + 2).
Proof.
  destruct (window_never_goes_back Hosts.berlin2024 Sample.berlinLate
              (backKeys Hosts.berlin2024 Sample.berlinLate))
    as (days & _ & Hl & Hs & _).
  - apply berlin_offsetShiftWithinDay.
  - vm_compute. reflexivity.
  - eauto.
Defined.

(** ** Keys *)

(** Lines 82-85 bucket the samples by UTC day: two samples whose dates
    convert to time values have the same key exactly when the time values
    are on the same UTC day, whatever the time of day and the host. *)
Theorem same_key_same_utc_day h stat1 stat2 t1 t2 :
  JSDate.construct h (date stat1) = Some t1 ->
  JSDate.construct h (date stat2) = Some t2 ->
  Z.abs t1 <= 8640000000000000 -> Z.abs t2 <= 8640000000000000 ->
  sampleKey h stat1 = sampleKey h stat2 <-> Calendar.Day t1 = Calendar.Day t2.
Proof.
  intros H1 H2 Hr1 Hr2. unfold sampleKey. rewrite H1, H2. simpl. split.
  - intros [= H]. by apply isoDate_inj.
  - intros H. f_equal. by apply isoDate_Day.
Qed.

Lemma same_key_same_utc_day_witness :
  sampleKey Hosts.berlin2024 {| views := 1; date := DateObj (Some 1709337600000) |}
  = sampleKey Hosts.berlin2024 {| views := 2; date := DateObj (Some 1709423999999) |}.
Proof.
  apply (same_key_same_utc_day Hosts.berlin2024 _ _ 1709337600000 1709423999999).
  - reflexivity.
  - reflexivity.
  - vm_compute. discriminate.
  - vm_compute. discriminate.
  - vm_compute. reflexivity.
Defined.

(** The key of lines 83 and 96 has the ten characters of [YYYY-MM-DD] for
    the years 0000 to 9999 and thirteen characters outside them, where
    [toISOString] writes a sign and six digits. *)
Theorem key_has_ten_characters t k :
  dayKey (Some t) = Ok k ->
  String.length k = (if bool_decide (fourDigitYear t) then 10 else 13)%nat.
Proof.
  rewrite dayKey_valid. intros [= <-]. unfold Text.isoDate.
  rewrite !string_length_app, !length_padded, length_isoYear. simpl.
  destruct (bool_decide_reflect (fourDigitYear t)) as [Hy|Hy];
    rewrite fourDigitYear_year in Hy.
  - by rewrite (proj2 (andb_true_iff _ _)) by (split; apply Z.leb_le; lia).
  - destruct ((0 <=? Calendar.YearFromTime t) && (Calendar.YearFromTime t <=? 9999))
      eqn:E; [|done].
    apply andb_true_iff in E as [?%Z.leb_le ?%Z.leb_le]. lia.
Qed.

Lemma key_has_ten_characters_witness :
  exists k, dayKey (Some Sample.berlinLate) = Ok k /\ String.length k = 10%nat.
Proof.
  exists "2024-03-31". split; [vm_compute; reflexivity|].
  apply (key_has_ten_characters Sample.berlinLate "2024-03-31").
  vm_compute. reflexivity.
Defined.

(** ** The series fed back *)

Lemma last_all_equal {A} (l : list A) x :
  l ≠ [] -> (forall y, y ∈ l -> y = x) -> last l = Some x.
Proof.
  intros Hne Hall. destruct (last l) as [y|] eqn:E.
  - f_equal. apply Hall. by apply last_Some_elem_of.
  - by apply last_None in E.
Qed.

Section Idempotent.
Variables (h : Host) (now : Z).
Hypothesis Hparse : readsIsoDates h.
Hypothesis Hyears :
  forall index, (index < 30)%nat -> fourDigitYear (backTime h now index).

(** An output entry is a sample of its own key. *)
Lemma sampleKey_entryOn m k :
  k ∈ backKeys h now -> sampleKey h (entryOn m k) = Some k.
Proof.
  intros (index & Hi & ->)%elem_of_backKeys.
  unfold sampleKey, entryOn. cbn [date JSDate.construct].
  rewrite Hparse by auto. cbn [fmap option_fmap option_map]. f_equal.
  apply isoDate_Day, Day_of_day.
Qed.

Lemma lastOn_entries m k :
  k ∈ backKeys h now ->
  lastOn h (entryOn m <$> backKeys h now) k = Some (entryOn m k).
Proof.
  intros Hk. unfold lastOn. apply last_all_equal.
  - intros Hnil. eapply (filter_nil_not_elem_of _ _ (entryOn m k)); [exact Hnil| |].
    + by apply sampleKey_entryOn.
    + apply list_elem_of_fmap. eauto.
  - intros e [He (k' & -> & Hk')%list_elem_of_fmap]%list_elem_of_filter.
    rewrite sampleKey_entryOn in He by done. by injection He as ->.
Qed.

(** Lines 82-119 applied to their own output, at the same instant, give the
    output back: the entries, dated by strings [YYYY-MM-DD], are read by
    [new Date] as the days they stand for. *)
Theorem series_is_fixpoint daily series :
  normalizeDaily h now daily = Ok series ->
  normalizeDaily h now series = Ok series.
Proof.
  intros H.
  destruct (normalizeDaily_Ok_inv _ _ _ _ H) as (m & last30 & Hm & Hk & ->).
  pose proof Hk as [-> _]%last30Days_Ok.
  assert (Forall (validDate h) (entryOn m <$> backKeys h now)) as Hv.
  { apply Forall_forall. intros e (k & -> & Hin)%list_elem_of_fmap.
    apply sampleKey_valid. rewrite sampleKey_entryOn by done. eauto. }
  destruct (buildDailyStatsMap_valid h _ Hv) as (m' & Hm' & Hl).
  rewrite (normalizeDaily_steps _ _ _ _ _ Hm' Hk). f_equal.
  apply list_fmap_ext. intros i k Hi%list_elem_of_lookup_2.
  unfold entryOn at 1. rewrite Hl, lastOn_entries by done. done.
Qed.

End Idempotent.

Lemma series_is_fixpoint_witness :
  exists series,
    normalizeDaily Hosts.berlin2024 Sample.berlinLate [Sample.march2] = Ok series /\
    normalizeDaily Hosts.berlin2024 Sample.berlinLate series = Ok series.
Proof.
  assert (exists series,
            normalizeDaily Hosts.berlin2024 Sample.berlinLate [Sample.march2]
            = Ok series) as [series H] by (eexists; vm_compute; reflexivity).
  exists series. split; [exact H|].
  apply (series_is_fixpoint Hosts.berlin2024 Sample.berlinLate)
    with (daily := [Sample.march2]).
  - apply berlin_readsIsoDates.
  - intros index Hi.
    pose proof (backTime_between Hosts.berlin2024 Sample.berlinLate index
                  berlin_offsetWithinDay Hi) as Hb.
    unfold fourDigitYear, Sample.berlinLate, Calendar.msPerDay in *. lia.
  - exact H.
Defined.

(** ** One sample per day *)

Section DistinctDays.
Variable h : Host.

(** With one sample per key at most, a key selects at most one sample. *)
Lemma filter_key_short daily k :
  NoDup (sampleKey h <$> daily) ->
  (length (filter (fun stat => sampleKey h stat = Some k) daily) <= 1)%nat.
Proof.
  induction daily as [|stat daily IH]; intros Hnd; [simpl; lia|].
  rewrite fmap_cons in Hnd. apply NoDup_cons in Hnd as [Hnotin Hnd].
  rewrite filter_cons. destruct (decide (sampleKey h stat = Some k)) as [Hk|Hk].
  - rewrite filter_none; [simpl; lia|].
    intros later Hin Hl. apply Hnotin. rewrite Hk, <- Hl.
    apply list_elem_of_fmap. eauto.
  - by apply IH.
Qed.

Lemma lastOn_Permutation daily1 daily2 k :
  NoDup (sampleKey h <$> daily1) -> daily1 ≡ₚ daily2 ->
  lastOn h daily1 k = lastOn h daily2 k.
Proof.
  intros Hnd Hp. unfold lastOn.
  pose proof (filter_key_short daily1 k Hnd) as Hlen.
  assert (filter (fun stat => sampleKey h stat = Some k) daily1 ≡ₚ
          filter (fun stat => sampleKey h stat = Some k) daily2) as Hf
    by (by rewrite Hp).
  destruct (filter _ daily1) as [|a [|b l]]; simpl in Hlen; [| |lia].
  - by apply Permutation_nil_l in Hf as ->.
  - by apply Permutation_singleton_l in Hf as ->.
Qed.

(** The order of the samples does not matter when no two of them have the
    same key: a permutation of such a collection gets the same series. *)
Theorem order_of_samples_irrelevant now daily1 daily2 series :
  NoDup (sampleKey h <$> daily1) ->
  daily1 ≡ₚ daily2 ->
  normalizeDaily h now daily1 = Ok series ->
  normalizeDaily h now daily2 = Ok series.
Proof.
  intros Hnd Hp H.
  destruct (normalizeDaily_Ok_inv _ _ _ _ H) as (m & last30 & Hm & Hk & ->).
  apply buildDailyStatsMap_Ok in Hm as [Hv Hl].
  rewrite Hp in Hv.
  destruct (buildDailyStatsMap_valid h daily2 Hv) as (m2 & Hm2 & Hl2).
  rewrite (normalizeDaily_steps _ _ _ _ _ Hm2 Hk). f_equal.
  apply list_fmap_ext. intros i k _. unfold entryOn.
  by rewrite Hl, Hl2, (lastOn_Permutation daily1 daily2).
Qed.

Lemma sumOver_ext {A} (f g : A -> Z) l :
  (forall a, a ∈ l -> f a = g a) -> sumOver f l = sumOver g l.
Proof.
  induction l as [|a l IH]; intros H; [done|].
  unfold sumOver in *. cbn [foldr]. rewrite (H a) by left. f_equal. apply IH.
  intros b Hb. apply H. by right.
Qed.

Lemma sumOver_add {A} (f g : A -> Z) l :
  sumOver (fun a => f a + g a) l = sumOver f l + sumOver g l.
Proof.
  induction l as [|a l IH]; [done|]. unfold sumOver in *. cbn [foldr]. rewrite IH. lia.
Qed.

Lemma sumOver_zero {A} (l : list A) : sumOver (fun _ => 0) l = 0.
Proof.
  induction l as [|a l IH]; [done|]. unfold sumOver in *. cbn [foldr]. by rewrite IH.
Qed.

Lemma sumOver_fmap {A B} (g : A -> B) (f : B -> Z) l :
  sumOver f (g <$> l) = sumOver (fun a => f (g a)) l.
Proof.
  induction l as [|a l IH]; [done|].
  rewrite fmap_cons. unfold sumOver in *. cbn [foldr]. by rewrite IH.
Qed.

Lemma sumOver_indicator `{EqDecision A} (l : list A) x c :
  NoDup l -> x ∈ l -> sumOver (fun a => if decide (a = x) then c else 0) l = c.
Proof.
  induction l as [|a l IH]; intros Hnd Hin; [by apply elem_of_nil in Hin|].
  apply NoDup_cons in Hnd as [Ha Hnd].
  change (sumOver (fun a => if decide (a = x) then c else 0) (a :: l))
    with ((if decide (a = x) then c else 0)
          + sumOver (fun a => if decide (a = x) then c else 0) l).
  destruct (decide (a = x)) as [->|Hne].
  - rewrite (sumOver_ext _ (fun _ => 0)).
    + rewrite sumOver_zero. lia.
    + intros b Hb. rewrite decide_False; [done|]. by intros ->.
  - apply elem_of_cons in Hin as [->|Hin]; [done|].
    rewrite IH by done. lia.
Qed.

Lemma viewsOn_cons stat daily k ks :
  sampleKey h stat = Some ks ->
  Some ks ∉ sampleKey h <$> daily ->
  viewsOn h (stat :: daily) k =
  (if decide (k = ks) then views stat else 0) + viewsOn h daily k.
Proof.
  intros Hs Hnotin. unfold viewsOn, lastOn. rewrite filter_cons.
  destruct (decide (k = ks)) as [->|Hne].
  - rewrite decide_True by done.
    rewrite filter_none; [simpl; lia|].
    intros later Hin Hl. apply Hnotin. rewrite <- Hl. apply list_elem_of_fmap. eauto.
  - rewrite decide_False by congruence. lia.
Qed.

(** One sample per day at most, all in the window: the views per window key
    add up to the views of the samples. *)
Lemma sumOver_viewsOn (keys : list string) daily :
  NoDup keys -> NoDup (sampleKey h <$> daily) ->
  Forall (inWindow h keys) daily ->
  sumOver (viewsOn h daily) keys = sumViews daily.
Proof.
  intros Hk. induction daily as [|stat daily IH]; intros Hnd Hw.
  - apply sumOver_zero.
  - rewrite fmap_cons in Hnd. apply NoDup_cons in Hnd as [Hnotin Hnd].
    apply Forall_cons in Hw as [Hs Hw]. unfold inWindow in Hs.
    destruct (sampleKey h stat) as [ks|] eqn:Eks; [|done].
    rewrite (sumOver_ext _ (fun k => (if decide (k = ks) then views stat else 0)
                                      + viewsOn h daily k)).
    2:{ intros k _. by apply viewsOn_cons. }
    rewrite sumOver_add, sumOver_indicator, IH by done. done.
Qed.

(** No view is lost or invented: when no two samples have the same key and
    no window key is repeated, the views of the series add up to the views
    of the samples whose key is a window key. *)
Theorem views_conserved now daily series last30 :
  normalizeDaily h now daily = Ok series ->
  last30Days h now = Ok last30 ->
  NoDup last30 ->
  NoDup (sampleKey h <$> daily) ->
  sumViews series = sumViews (filter (inWindow h last30) daily).
Proof.
  intros H Hk Hnd Hd.
  destruct (normalizeDaily_Ok_inv _ _ _ _ H) as (m & last30' & Hm & Hk' & ->).
  assert (last30' = last30) as -> by congruence.
  apply buildDailyStatsMap_Ok in Hm as [_ Hl].
  unfold sumViews at 1. rewrite sumOver_fmap.
  rewrite <- (sumOver_viewsOn last30 (filter (inWindow h last30) daily)); try done.
  - apply sumOver_ext. intros k Hin. unfold viewsOn, entryOn. cbn [views].
    by rewrite Hl, lastOn_window.
  - eapply sublist_NoDup; [exact Hd|]. apply fmap_sublist, sublist_filter.
  - apply Forall_forall. by intros stat [? _]%list_elem_of_filter.
Qed.

End DistinctDays.

Lemma order_of_samples_irrelevant_witness :
  exists series,
    normalizeDaily Hosts.utc Sample.now
      [ {| views := 9; date := Str "2024-01-01" |};
        {| views := 5; date := Str "2024-01-29" |} ] = Ok series /\
    normalizeDaily Hosts.utc Sample.now
      [ {| views := 5; date := Str "2024-01-29" |};
        {| views := 9; date := Str "2024-01-01" |} ] = Ok series.
Proof.
  assert (exists series,
            normalizeDaily Hosts.utc Sample.now
              [ {| views := 9; date := Str "2024-01-01" |};
                {| views := 5; date := Str "2024-01-29" |} ] = Ok series)
    as [series H] by (eexists; vm_compute; reflexivity).
  exists series. split; [exact H|].
  eapply (order_of_samples_irrelevant Hosts.utc Sample.now); [| |exact H].
  - apply (bool_decide_unpack _). vm_compute. exact I.
  - apply Permutation_swap.
Defined.

Lemma views_conserved_witness :
  exists series,
    normalizeDaily Hosts.utc Sample.now
      [ {| views := 9; date := Str "2024-01-01" |};
        {| views := 4; date := Str "2023-12-25" |};
        {| views := 5; date := Str "2024-01-29" |} ] = Ok series /\
    sumViews series = 14.
Proof.
  assert (exists series,
            normalizeDaily Hosts.utc Sample.now
              [ {| views := 9; date := Str "2024-01-01" |};
                {| views := 4; date := Str "2023-12-25" |};
                {| views := 5; date := Str "2024-01-29" |} ] = Ok series)
    as [series H] by (eexists; vm_compute; reflexivity).
  exists series. split; [exact H|].
  rewrite (views_conserved Hosts.utc Sample.now _ series
             (isoDay <$> windowDays (Calendar.Day Sample.now)) H).
  - vm_compute. reflexivity.
  - vm_compute. reflexivity.
  - apply (bool_decide_unpack _). vm_compute. exact I.
  - apply (bool_decide_unpack _). vm_compute. exact I.
Defined.

(** ** The outcomes of [getServerSideProps] *)

Lemma arrayMap_Throw_inv {A B} (f : A -> result B) l e :
  arrayMap f l = Throw e -> exists a, a ∈ l /\ f a = Throw e.
Proof.
  induction l as [|a l IH]; intros H; [discriminate|].
  simpl in H. destruct (f a) as [b|e'] eqn:Ea.
  - rewrite bind_Ok in H. destruct (arrayMap f l) as [bs|e'] eqn:El; [discriminate|].
    injection H as ->. destruct (IH eq_refl) as (a' & Hin & Ha').
    exists a'. split; [by right|done].
  - injection H as ->. exists a. split; [left|done].
Qed.

Lemma arrayFilter_Ok {A} (f : A -> result bool) (g : A -> bool) l :
  (forall a, a ∈ l -> f a = Ok (g a)) -> arrayFilter f l = Ok (List.filter g l).
Proof.
  induction l as [|a l IH]; intros H; [done|].
  cbn [arrayFilter List.filter]. rewrite (H a) by left.
  rewrite bind_Ok, IH, bind_Ok; [done|]. intros b Hb. apply H. by right.
Qed.

(** Lines 78-80 with a profile that has links. *)
Lemma arrayFilter_links_Some profile pLinks individual :
  Profile.links profile = Some pLinks ->
  arrayFilter (linkInProfile profile) individual
  = Ok (filter (urlInProfile pLinks) individual).
Proof.
  intros Hl.
  rewrite (arrayFilter_Ok _
             (fun link => existsb (fun pLink =>
                String.eqb (Profile.url pLink) (Stats.url link)) pLinks)).
  - f_equal. apply filter_bool_Prop. intros link. apply existsb_url.
  - intros link _. unfold linkInProfile. by rewrite Hl.
Qed.

(** Lines 78-80 with a profile without links: the first callback throws. *)
Lemma arrayFilter_links_None profile link individual :
  Profile.links profile = None ->
  arrayFilter (linkInProfile profile) (link :: individual)
  = Throw (TypeError "Cannot read properties of undefined (reading 'some')").
Proof. intros Hl. simpl. unfold linkInProfile. by rewrite Hl. Qed.

Lemma last30Days_Throw h now e :
  last30Days h now = Throw e ->
  e = RangeError "Invalid time value" /\
  exists index, (index < 30)%nat /\ 8640000000000000 < Z.abs (backTime h now index).
Proof.
  rewrite last30Days_unfold. intros H.
  destruct (arrayMap _ (seq 0 30)) as [days|e'] eqn:E; [discriminate|].
  injection H as ->. apply arrayMap_Throw_inv in E as (index & Hi%elem_of_seq & He).
  unfold Calendar.TimeClip in He.
  destruct (Z.leb_spec (Z.abs (backTime h now index)) 8640000000000000) as [Hle|Hgt].
  - by rewrite dayKey_valid in He.
  - injection He as <-. split; [done|]. exists index. split; [lia|done].
Qed.

(** The normalisation throws nothing but the [RangeError] of
    [toISOString]. *)
Lemma normalizeDaily_Throw h now daily e :
  normalizeDaily h now daily = Throw e ->
  e = RangeError "Invalid time value" /\
  (Exists (fun stat => ~ validDate h stat) daily \/
   exists index, (index < 30)%nat /\ 8640000000000000 < Z.abs (backTime h now index)).
Proof.
  intros H.
  destruct (decide (Forall (validDate h) daily)) as [Hv|Hv].
  - destruct (buildDailyStatsMap_valid h daily Hv) as (m & Hm & _).
    destruct (last30Days h now) as [keys|e'] eqn:Ek.
    + rewrite (normalizeDaily_steps _ _ _ _ _ Hm Ek) in H. discriminate.
    + unfold normalizeDaily in H. rewrite Hm, bind_Ok, Ek in H. injection H as <-.
      apply last30Days_Throw in Ek as [-> Hi]. auto.
  - apply not_Forall_Exists in Hv; [|apply _].
    unfold normalizeDaily in H. rewrite (buildDailyStatsMap_invalid h daily Hv) in H.
    injection H as <-. auto.
Qed.

Lemma buildProps_Ok_iff h now profile stats BASE_URL :
  (exists response, buildProps h now profile stats BASE_URL = Ok response) <->
  exists data,
    stats = Ok data /\
    (is_Some (Profile.links profile) \/ Stats.links_individual data = []) /\
    Forall (validDate h) (Stats.profile_daily data) /\
    windowInRange h now.
Proof.
  unfold buildProps. split.
  - intros [response H]. destruct stats as [data|e]; [|discriminate].
    exists data. bind_inv H.
    destruct (normalizeDaily_Ok_inv _ _ _ _ Ha0) as (m & keys & Hm & Hk & _).
    apply buildDailyStatsMap_Ok in Hm as [Hv _].
    apply last30Days_Ok in Hk as [_ Hr].
    split_and!; try done.
    destruct (Profile.links profile) as [pLinks|] eqn:El; [left; eauto|right].
    destruct (Stats.links_individual data) as [|link individual]; [done|].
    by rewrite arrayFilter_links_None in Ha.
  - intros (data & -> & Hl & Hv & Hr).
    destruct (normalizeDaily_total h now _ Hv Hr) as [series Hs].
    rewrite Hs. destruct Hl as [[pLinks Hl]|Hl].
    + rewrite (arrayFilter_links_Some _ pLinks) by done. eauto.
    + rewrite Hl. eauto.
Qed.

(** What a returned [props] is made of. *)
Lemma getServerSideProps_Props_inv
    h now session userApi getStats BASE_URL data' profile' progress' base' :
  getServerSideProps h now session userApi getStats BASE_URL
    = Ok (Props data' profile' progress' base') ->
  exists username data,
    session = Some username /\
    userApi username = (200, profile') /\
    getStats username = Ok data /\
    progress' = computeProgress profile' /\
    base' = BASE_URL /\
    Stats.links_individual data' =
      filter (urlInProfile (default [] (Profile.links profile')))
        (Stats.links_individual data) /\
    Stats.links_clicks data' = sumClicks (Stats.links_individual data') /\
    normalizeDaily h now (Stats.profile_daily data) = Ok (Stats.profile_daily data') /\
    Stats.profile_monthly data' = Stats.profile_monthly data /\
    Stats.profile_total data' = Stats.profile_total data.
Proof.
  unfold getServerSideProps. intros H.
  destruct session as [username|]; [|discriminate].
  destruct (userApi username) as [status profile] eqn:Eu.
  destruct (Z.eqb_spec status 200) as [->|Hne]; [|discriminate]. simpl in H.
  unfold buildProps in H.
  destruct (getStats username) as [data|e] eqn:Es; [|discriminate].
  bind_inv H. injection H as <- <- <- <-.
  apply arrayFilter_linkInProfile in Ha.
  exists username, data. cbn. rewrite totalClicks_sum. by split_and!.
Qed.

(** [getServerSideProps] returns props exactly when there is a session, the
    profile was loaded with status 200, [getStats] returned, the profile has
    a [links] array (or there is no link statistic to filter), every sample
    date converts to a time value and the window is in the range of [Date]. *)
Theorem props_returned_iff h now session userApi getStats BASE_URL :
  (exists data' profile' progress' base',
     getServerSideProps h now session userApi getStats BASE_URL
     = Ok (Props data' profile' progress' base')) <->
  exists username profile data,
    session = Some username /\
    userApi username = (200, profile) /\
    getStats username = Ok data /\
    (is_Some (Profile.links profile) \/ Stats.links_individual data = []) /\
    Forall (validDate h) (Stats.profile_daily data) /\
    windowInRange h now.
Proof.
  unfold getServerSideProps. split.
  - intros (data' & profile' & progress' & base' & H).
    destruct session as [username|]; [|discriminate].
    destruct (userApi username) as [status profile] eqn:Eu.
    destruct (Z.eqb_spec status 200) as [->|Hne]; [|discriminate]. simpl in H.
    destruct (proj1 (buildProps_Ok_iff h now profile (getStats username) BASE_URL))
      as (data & Hs & Hl & Hv & Hr); [eauto|].
    exists username, profile, data. by split_and!.
  - intros (username & profile & data & -> & Hu & Hs & Hl & Hv & Hr).
    rewrite Hu. simpl.
    destruct (proj2 (buildProps_Ok_iff h now profile (getStats username) BASE_URL))
      as [response H]; [exists data; by split_and!|].
    rewrite H. unfold buildProps in H. rewrite Hs in H. bind_inv H.
    injection H as <-. eauto.
Qed.

(** [getServerSideProps] redirects exactly when there is no session (to the
    sign-in page) or the profile did not load with status 200 (to the
    no-profile page), never permanently; without a session neither the
    profile nor the statistics matter. *)
Theorem redirect_iff h now session userApi getStats BASE_URL destination permanent :
  getServerSideProps h now session userApi getStats BASE_URL
    = Ok (Redirect destination permanent) <->
  permanent = false /\
  ((session = None /\ destination = "/auth/signin") \/
   (exists username, session = Some username /\
      (userApi username).1 ≠ 200 /\ destination = "/account/no-profile")).
Proof.
  unfold getServerSideProps. split.
  - intros H. destruct session as [username|].
    + destruct (userApi username) as [status profile] eqn:Eu.
      destruct (Z.eqb_spec status 200) as [->|Hne]; simpl in H.
      * unfold buildProps in H. destruct (getStats username); [|discriminate].
        bind_inv H. discriminate.
      * injection H as <- <-. split; [done|]. right. exists username.
        rewrite Eu. done.
    + injection H as <- <-. split; [done|]. by left.
  - intros [-> [[-> ->]|(username & -> & Hne & ->)]]; [done|].
    destruct (userApi username) as [status profile]. simpl in Hne.
    by destruct (Z.eqb_spec status 200).
Qed.

(** The errors [getServerSideProps] can throw, and when: the [TypeError] of
    line 78 when [getStats] threw (the [catch] of lines 65-67 leaves [data]
    empty), the [TypeError] of line 79 when the profile has no [links] and
    there is a link statistic, the [RangeError] of [toISOString] when a
    sample date does not convert or the window leaves the range of [Date].
    The error of [getStats] itself never gets out, and line 108 never reads
    [views] off a missing entry. *)
Theorem thrown_errors h now session userApi getStats BASE_URL e :
  getServerSideProps h now session userApi getStats BASE_URL = Throw e ->
  exists username profile,
    session = Some username /\ userApi username = (200, profile) /\
    ((e = TypeError "Cannot read properties of undefined (reading 'individual')" /\
      exists e0, getStats username = Throw e0) \/
     (e = TypeError "Cannot read properties of undefined (reading 'some')" /\
      Profile.links profile = None /\
      exists data, getStats username = Ok data /\ Stats.links_individual data ≠ []) \/
     (e = RangeError "Invalid time value" /\
      exists data, getStats username = Ok data /\
        (Exists (fun stat => ~ validDate h stat) (Stats.profile_daily data) \/
         exists index, (index < 30)%nat /\
           8640000000000000 < Z.abs (backTime h now index)))).
Proof.
  unfold getServerSideProps. intros H.
  destruct session as [username|]; [|discriminate].
  destruct (userApi username) as [status profile] eqn:Eu.
  destruct (Z.eqb_spec status 200) as [->|Hne]; [|discriminate]. simpl in H.
  exists username, profile. split_and!; try done.
  unfold buildProps in H. destruct (getStats username) as [data|e0] eqn:Es.
  - destruct (Profile.links profile) as [pLinks|] eqn:El.
    + rewrite (arrayFilter_links_Some _ pLinks), bind_Ok in H by done.
      destruct (normalizeDaily h now (Stats.profile_daily data)) as [series|e'] eqn:En;
        [discriminate|].
      injection H as ->. apply normalizeDaily_Throw in En as [-> Hc].
      right; right. eauto.
    + destruct (Stats.links_individual data) as [|link individual] eqn:Ei.
      * cbn [arrayFilter] in H. rewrite bind_Ok in H.
        destruct (normalizeDaily h now (Stats.profile_daily data)) as [series|e'] eqn:En;
          [discriminate|].
        injection H as ->. apply normalizeDaily_Throw in En as [-> Hc].
        right; right. eauto.
      * rewrite arrayFilter_links_None in H by done. injection H as <-.
        right; left. split_and!; try done. exists data. by rewrite Ei.
  - injection H as <-. left. eauto.
Qed.

Lemma thrown_errors_witness :
  exists e,
    getServerSideProps Hosts.utc Sample.now (Some "ada")
      (fun _ => (200, Sample.profile)) (fun _ => Throw (RangeError "database"))
      "https://linkfree.example" = Throw e /\
    e <> RangeError "database".
Proof.
  assert (exists e,
            getServerSideProps Hosts.utc Sample.now (Some "ada")
              (fun _ => (200, Sample.profile)) (fun _ => Throw (RangeError "database"))
              "https://linkfree.example" = Throw e) as [e H]
    by (eexists; vm_compute; reflexivity).
  exists e. split; [exact H|].
  destruct (thrown_errors _ _ _ _ _ _ _ H)
    as (username & profile & _ & _ & [[-> _]|[[-> _]|[-> [data [Hd _]]]]]);
    discriminate.
Defined.

(** ** What the props hold *)




(** The props pass the profile, the base URL and the monthly and total
    counters on unchanged, carry the progress of that profile, and always
    hold thirty daily entries, each dated by a string of ten or thirteen
    characters: [data.profile.daily.length > 0], the condition under which
    line 172 renders the chart, holds for every props returned. *)
Theorem props_contents
    h now session userApi getStats BASE_URL data' profile' progress' base' :
  getServerSideProps h now session userApi getStats BASE_URL
    = Ok (Props data' profile' progress' base') ->
  exists username data,
    session = Some username /\ userApi username = (200, profile') /\
    getStats username = Ok data /\
    progress' = computeProgress profile' /\
    base' = BASE_URL /\
    Stats.profile_monthly data' = Stats.profile_monthly data /\
    Stats.profile_total data' = Stats.profile_total data /\
    length (Stats.profile_daily data') = 30%nat /\
    Forall (fun entry =>
              exists key, date entry = Str key /\
                (String.length key = 10%nat \/ String.length key = 13%nat))
      (Stats.profile_daily data').
Proof.
  intros H.
  apply getServerSideProps_Props_inv in H
    as (username & data & Hs & Hu & Hg & Hp & Hb & _ & _ & Hn & Hm & Ht).
  exists username, data.
  destruct (normalizeDaily_Ok_inv _ _ _ _ Hn) as (m & keys & _ & Hk & Hd).
  rewrite Hd. split_and!; try done.
  - rewrite length_fmap. by eapply length_last30Days.
  - apply last30Days_Ok in Hk as [-> _].
    apply Forall_forall. intros entry (k & -> & Hin)%list_elem_of_fmap.
    exists k. split; [done|]. apply elem_of_backKeys in Hin as (index & _ & ->).
    unfold Text.isoDate.
    rewrite !string_length_app, !length_padded, length_isoYear. simpl.
    destruct (_ && _); auto.
Qed.

Lemma props_contents_witness :
  exists data',
    getServerSideProps Hosts.utc Sample.now (Some "ada")
      (fun _ => (200, Sample.profile)) (fun _ => Ok Sample.stats)
      "https://linkfree.example"
    = Ok (Props data' Sample.profile (computeProgress Sample.profile)
            "https://linkfree.example") /\
    length (Stats.profile_daily data') = 30%nat.
Proof.
  assert (exists data',
            getServerSideProps Hosts.utc Sample.now (Some "ada")
              (fun _ => (200, Sample.profile)) (fun _ => Ok Sample.stats)
              "https://linkfree.example"
            = Ok (Props data' Sample.profile (computeProgress Sample.profile)
                    "https://linkfree.example"))
    as [data' H] by (eexists; vm_compute; reflexivity).
  exists data'. split; [exact H|].
  destruct (props_contents _ _ _ _ _ _ _ _ _ _ H)
    as (username & data & _ & _ & _ & _ & _ & _ & _ & Hl & _).
  exact Hl.
Defined.

(** ** The two ends of the completion *)



